(** * Timer board service: the clock-based timer engine

    A shallow embedding of [applyCommand], [effectiveElapsed], [emptyBoard],
    [boardKey] and [loadBoard] of the worker (src/index.ts), and the
    properties of the timer state machine proved over it.

    JavaScript numbers are IEEE-754 binary64 values: they are embedded as
    Rocq's primitive [float], so NaN, infinities, negative and fractional
    durations are all part of the model.  The request body is an arbitrary
    JSON value ([body: any]); it is embedded as the type [value]. *)

From Stdlib Require Import ZArith List String Ascii Bool Lia.
From Stdlib Require Import Floats Uint63.
Import ListNotations.

Local Open Scope string_scope.
Local Open Scope bool_scope.

(** ** Exceptions *)

(** The only exception the engine can meet is a [TypeError]; [SyntaxError]
    is what [JSON.parse] throws. *)
Inductive exn : Type :=
| TypeError
| SyntaxError.

Inductive result (A : Type) : Type :=
| Ok (a : A)
| Throw (e : exn).

Arguments Ok {A} a.
Arguments Throw {A} e.

Definition bind {A B : Type} (m : result A) (k : A -> result B) : result B :=
  match m with
  | Ok a => k a
  | Throw e => Throw e
  end.

Notation "x <- m ;; k" := (bind m (fun x => k))
  (at level 61, m at next level, right associativity).

(** ** JavaScript values of JSON shape *)

#[local] Set Warnings "-register-all".

Inductive value : Type :=
| VUndefined
| VNull
| VBool (b : bool)
| VNum (n : float)
| VStr (s : string)
| VArr (elems : list value)
| VObj (props : list (string * value)).

(** Own data properties of an object, in an association list. *)
Fixpoint own (k : string) (props : list (string * value)) : option value :=
  match props with
  | [] => None
  | (k', v) :: rest => if String.eqb k k' then Some v else own k rest
  end.

(** [v.k] for the property names the engine reads ([action], [payload],
    [label], [durationMs], [id], [command]): none of them lives on a
    prototype, so the lookup sees own properties only.  Reading a property
    of [undefined] or [null] throws. *)
Definition get (v : value) (k : string) : result value :=
  match v with
  | VUndefined | VNull => Throw TypeError
  | VObj props =>
      match own k props with
      | Some x => Ok x
      | None => Ok VUndefined
      end
  | _ => Ok VUndefined
  end.

(** [v?.k] *)
Definition optGet (v : value) (k : string) : result value :=
  match v with
  | VUndefined | VNull => Ok VUndefined
  | _ => get v k
  end.

(** [v ?? d] *)
Definition coalesce (v d : value) : value :=
  match v with
  | VUndefined | VNull => d
  | _ => v
  end.

(** [v === s] for a string [s]. *)
Definition strictEqStr (v : value) (s : string) : bool :=
  match v with
  | VStr s' => String.eqb s' s
  | _ => false
  end.

(** Truthiness of a number: [0], [-0] and [NaN] are falsy. *)
Definition truthyNum (n : float) : bool :=
  negb (PrimFloat.is_nan n || PrimFloat.is_zero n).

(** Truthiness of a string: only the empty string is falsy. *)
Definition truthyStr (s : string) : bool :=
  match s with
  | EmptyString => false
  | String _ _ => true
  end.

(** ECMAScript [ToBoolean]. *)
Definition ToBoolean (v : value) : bool :=
  match v with
  | VUndefined | VNull => false
  | VBool b => b
  | VNum n => truthyNum n
  | VStr s => truthyStr s
  | VArr _ | VObj _ => true
  end.

(** ** The host runtime *)

(** Built-ins of the JavaScript host that the engine calls.  The theorems
    below hold for every runtime; [ecma] further down is a concrete one used
    to run the model. *)
Class Runtime : Type := {
  (** [Date.parse] *)
  Date_parse : string -> float;
  (** [new Date(ms).toISOString()] of a clock reading in milliseconds *)
  toISOString : Z -> string;
  (** [StringToNumber], the conversion behind [Number(s)] *)
  StringToNumber : string -> float;
  (** [Number::toString], the conversion behind [String(n)] *)
  NumberToString : float -> string
}.

(** The Number value of an integer clock reading ([Date.now()]); exact below
    2^53 in magnitude, which covers the whole range of [Date]. *)
Definition Z2F (z : Z) : float :=
  match z with
  | Z0 => 0%float
  | Zpos _ => PrimFloat.of_uint63 (Uint63.of_Z z)
  | Zneg _ => PrimFloat.opp (PrimFloat.of_uint63 (Uint63.of_Z (Z.opp z)))
  end.

Section Conversions.
Context {rt : Runtime}.

(** ECMAScript [ToString].  An array is joined with commas, [undefined] and
    [null] elements giving the empty string.  A plain object answers
    ["[object Object]"] through [Object.prototype.toString]; when it has an
    own property [toString] (never callable in a JSON value) neither
    [toString] nor [valueOf] yields a primitive and the conversion throws. *)
Fixpoint ToString (v : value) : result string :=
  match v with
  | VUndefined => Ok "undefined"
  | VNull => Ok "null"
  | VBool true => Ok "true"
  | VBool false => Ok "false"
  | VNum n => Ok (NumberToString n)
  | VStr s => Ok s
  | VArr elems =>
      (fix join (l : list value) : result string :=
         match l with
         | [] => Ok ""
         | x :: rest =>
             s <- match x with
                  | VUndefined | VNull => Ok ""
                  | _ => ToString x
                  end ;;
             match rest with
             | [] => Ok s
             | _ :: _ => r <- join rest ;; Ok (s ++ "," ++ r)
             end
         end) elems
  | VObj props =>
      match own "toString" props with
      | Some _ => Throw TypeError
      | None => Ok "[object Object]"
      end
  end.

(** ECMAScript [ToNumber], i.e. [Number(v)].  Arrays and objects go through
    their string conversion ([valueOf] returns the object itself). *)
Definition ToNumber (v : value) : result float :=
  match v with
  | VUndefined => Ok PrimFloat.nan
  | VNull => Ok 0%float
  | VBool true => Ok 1%float
  | VBool false => Ok 0%float
  | VNum n => Ok n
  | VStr s => Ok (StringToNumber s)
  | VArr _ | VObj _ => s <- ToString v ;; Ok (StringToNumber s)
  end.
End Conversions.

(** ** Data model *)

Inductive TimerState : Type := idle | running | paused | finished.

(** [label] is declared a string, but [label || "Timer"] stores whatever
    truthy value the payload carried. *)
Record Timer : Type := mkTimer {
  id : string;
  label : value;
  durationMs : float;
  state : TimerState;
  createdAt : string;
  updatedAt : string;
  startedAt : option string;
  elapsedMs : float
}.

Record Board : Type := mkBoard {
  boardId : string;
  timers : list Timer
}.

Definition emptyBoard (boardId : string) : Board :=
  {| boardId := boardId; timers := [] |}.

Definition boardKey (boardId : string) : string := "board:" ++ boardId.

(** Field assignments [timer.f = x]. *)
Definition set_state (x : TimerState) (t : Timer) : Timer :=
  mkTimer (id t) (label t) (durationMs t) x (createdAt t) (updatedAt t)
          (startedAt t) (elapsedMs t).

Definition set_startedAt (x : option string) (t : Timer) : Timer :=
  mkTimer (id t) (label t) (durationMs t) (state t) (createdAt t) (updatedAt t)
          x (elapsedMs t).

Definition set_elapsedMs (x : float) (t : Timer) : Timer :=
  mkTimer (id t) (label t) (durationMs t) (state t) (createdAt t) (updatedAt t)
          (startedAt t) x.

Definition set_updatedAt (x : string) (t : Timer) : Timer :=
  mkTimer (id t) (label t) (durationMs t) (state t) (createdAt t) x
          (startedAt t) (elapsedMs t).

(** [timer.state === "running" && timer.startedAt]: the timestamp to resume
    from, when there is one. *)
Definition runningSince (timer : Timer) : option string :=
  match state timer, startedAt timer with
  | running, Some s => if truthyStr s then Some s else None
  | _, _ => None
  end.

(** The array element that [board.timers.find] returns is mutated in place:
    the first timer satisfying [p] is replaced by its mutated self. *)
Fixpoint mutateFirst (p : Timer -> bool) (f : Timer -> Timer)
    (l : list Timer) : list Timer :=
  match l with
  | [] => []
  | t :: rest => if p t then f t :: rest else t :: mutateFirst p f rest
  end.

(** [(t) => t.id === id] *)
Definition hasId (id_ : value) (t : Timer) : bool := strictEqStr id_ (id t).

Section Engine.
Context {rt : Runtime}.

Definition effectiveElapsed (timer : Timer) (nowMs : float) : float :=
  match runningSince timer with
  | Some s => (elapsedMs timer + (nowMs - Date_parse s))%float
  | None => elapsedMs timer
  end.

(** [if (command === "start") { ... }] *)
Definition onStart (nowIso : string) (command : value) (timer : Timer) : Timer :=
  if strictEqStr command "start" then
    match state timer with
    | idle | paused => set_state running (set_startedAt (Some nowIso) timer)
    | _ => timer
    end
  else timer.

(** [if (command === "pause") { ... }] *)
Definition onPause (nowMs : float) (command : value) (timer : Timer) : Timer :=
  if strictEqStr command "pause" then
    match runningSince timer with
    | Some s =>
        set_state paused
          (set_startedAt None
             (set_elapsedMs (elapsedMs timer + (nowMs - Date_parse s))%float timer))
    | None => timer
    end
  else timer.

(** [if (command === "reset") { ... }] *)
Definition onReset (command : value) (timer : Timer) : Timer :=
  if strictEqStr command "reset" then
    set_state idle (set_startedAt None (set_elapsedMs 0%float timer))
  else timer.

(** [elapsed >= timer.durationMs] *)
Definition due (nowMs : float) (timer : Timer) : bool :=
  (durationMs timer <=? effectiveElapsed timer nowMs)%float.

(** Auto-finish if elapsed >= duration *)
Definition autoFinish (nowMs : float) (timer : Timer) : Timer :=
  if due nowMs timer then
    set_elapsedMs (durationMs timer) (set_startedAt None (set_state finished timer))
  else timer.

(** Everything the [command] branch does to the timer it found. *)
Definition runCommand (nowMs : float) (nowIso : string) (command : value)
    (timer : Timer) : Timer :=
  set_updatedAt nowIso
    (autoFinish nowMs
       (onReset command (onPause nowMs command (onStart nowIso command timer)))).

(** The object literal of the [create] branch; [n] is
    [Number(durationMs)]. *)
Definition newTimer (nowIso uuid : string) (label : value) (n : float) : Timer :=
  {| id := uuid;
     label := if ToBoolean label then label else VStr "Timer";
     durationMs := if truthyNum n then n else 0%float;
     state := idle;
     createdAt := nowIso;
     updatedAt := nowIso;
     startedAt := None;
     elapsedMs := 0%float |}.

(** [applyCommand(board, body)], with the two readings of the environment
    made explicit: [now] is [Date.now()] and [uuid] is
    [crypto.randomUUID()]. *)
Definition applyCommand (now : Z) (uuid : string) (board : Board)
    (body : value) : result Board :=
  let nowMs := Z2F now in
  let nowIso := toISOString now in
  action <- optGet body "action" ;;
  if strictEqStr action "create" then
    payload <- get body "payload" ;;
    let p := coalesce payload (VObj []) in
    label <- get p "label" ;;
    durationMs <- get p "durationMs" ;;
    n <- ToNumber durationMs ;;
    Ok {| boardId := boardId board;
          timers := timers board ++ [newTimer nowIso uuid label n] |}
  else if strictEqStr action "command" then
    payload <- get body "payload" ;;
    let p := coalesce payload (VObj []) in
    id_ <- get p "id" ;;
    command <- get p "command" ;;
    match find (hasId id_) (timers board) with
    | None => Ok board
    | Some _ =>
        Ok {| boardId := boardId board;
              timers := mutateFirst (hasId id_) (runCommand nowMs nowIso command)
                          (timers board) |}
    end
  else if strictEqStr action "delete" then
    payload <- get body "payload" ;;
    let p := coalesce payload (VObj []) in
    id_ <- get p "id" ;;
    Ok {| boardId := boardId board;
          timers := filter (fun t => negb (hasId id_ t)) (timers board) |}
  else
    Ok board.
End Engine.

(** ** Vocabulary of the properties *)

(** [body?.action] *)
Definition actionOf (body : value) : value :=
  match optGet body "action" with
  | Ok a => a
  | Throw _ => VUndefined
  end.

(** [(body.payload ?? {}).k] *)
Definition payloadOf (body : value) (k : string) : value :=
  match get body "payload" with
  | Ok p =>
      match get (coalesce p (VObj [])) k with
      | Ok v => v
      | Throw _ => VUndefined
      end
  | Throw _ => VUndefined
  end.

(** The action [{action: "command", payload: {id, command}}]. *)
Definition commandBody (tid command : string) : value :=
  VObj [ ("action", VStr "command");
         ("payload", VObj [ ("id", VStr tid); ("command", VStr command) ]) ].

(** The action [{action: "create", payload: {durationMs}}]. *)
Definition createBody (durationMs : value) : value :=
  VObj [ ("action", VStr "create");
         ("payload", VObj [ ("durationMs", durationMs) ]) ].

(** The timer that a command with payload id [tid] works on. *)
Definition lookup (b : Board) (tid : string) : option Timer :=
  find (hasId (VStr tid)) (timers b).

(** [body] is a [command] action with sub-command [reset] aimed at [tid]. *)
Definition resets (body : value) (tid : string) : bool :=
  strictEqStr (actionOf body) "command"
  && strictEqStr (payloadOf body "id") tid
  && strictEqStr (payloadOf body "command") "reset".

(** [body] is a [delete] action aimed at [tid]. *)
Definition deletes (body : value) (tid : string) : bool :=
  strictEqStr (actionOf body) "delete" && strictEqStr (payloadOf body "id") tid.

(** [startedAt] is non-null if and only if [state = running]. *)
Definition consistent (t : Timer) : Prop :=
  startedAt t <> None <-> state t = running.

Section Reachability.
Context {rt : Runtime}.

(** Boards built from the empty board by [applyCommand] steps, at any
    clock readings and with any generated identifiers. *)
Inductive reachable : Board -> Prop :=
| reach_empty (boardId : string) : reachable (emptyBoard boardId)
| reach_step (b b' : Board) (now : Z) (uuid : string) (body : value) :
    reachable b ->
    applyCommand now uuid b body = Ok b' ->
    reachable b'.
End Reachability.

(** ** Persistence *)

(** The key-value store as [loadBoard] sees it: [env.TIMERS.get(key)]
    resolves to the stored string, or to [null]. *)
Definition KV : Type := string -> option string.

Definition stateName (s : TimerState) : string :=
  match s with
  | idle => "idle"
  | running => "running"
  | paused => "paused"
  | finished => "finished"
  end.

(** The JavaScript object that a [Timer] record stands for. *)
Definition timerValue (t : Timer) : value :=
  VObj [ ("id", VStr (id t));
         ("label", label t);
         ("durationMs", VNum (durationMs t));
         ("state", VStr (stateName (state t)));
         ("createdAt", VStr (createdAt t));
         ("updatedAt", VStr (updatedAt t));
         ("startedAt", match startedAt t with Some s => VStr s | None => VNull end);
         ("elapsedMs", VNum (elapsedMs t)) ].

(** The JavaScript object that a [Board] record stands for. *)
Definition boardValue (b : Board) : value :=
  VObj [ ("boardId", VStr (boardId b));
         ("timers", VArr (map timerValue (timers b))) ].

Section Persistence.
(** [JSON.parse]: the parsed value, or a [SyntaxError]. *)
Variable JSON_parse : string -> result value.

(** [loadBoard(env, boardId)].  [JSON.parse(raw) as Board] is an unchecked
    cast, so what a stored text parses to is returned as it is. *)
Definition loadBoard (TIMERS : KV) (boardId : string) : result value :=
  match TIMERS (boardKey boardId) with
  | None => Ok (boardValue (emptyBoard boardId))
  | Some raw =>
      if negb (truthyStr raw) then Ok (boardValue (emptyBoard boardId))
      else
        match JSON_parse raw with
        | Ok v => Ok v
        | Throw _ => Ok (boardValue (emptyBoard boardId))
        end
  end.
End Persistence.

(** ** A concrete runtime

    An executable runtime for running the model on examples.  It follows
    ECMAScript on the fragment the examples use: ISO-8601 timestamps in the
    format [toISOString] produces, decimal integer strings, and integer-valued
    numbers.  Outside that fragment [Date_parse] and [StringToNumber] answer
    NaN and [NumberToString] answers ["NaN"]; no theorem depends on it. *)
Module Ecma.

Definition digit (n : Z) : ascii := ascii_of_nat (48 + Z.to_nat n).

(** The [k] low decimal digits of [n], most significant first. *)
Fixpoint digits (k : nat) (n : Z) (acc : string) : string :=
  match k with
  | O => acc
  | S k' => digits k' (n / 10) (String (digit (n mod 10)) acc)
  end.

Definition pad (k : nat) (n : Z) : string := digits k n "".

(** Decimal numeral of a non-negative integer. *)
Fixpoint decimal (fuel : nat) (n : Z) (acc : string) : string :=
  match fuel with
  | O => acc
  | S fuel' =>
      if (n <? 10)%Z then String (digit n) acc
      else decimal fuel' (n / 10) (String (digit (n mod 10)) acc)
  end.

(** Proleptic Gregorian date of a day number counted from 1970-01-01. *)
Definition civilFromDays (days : Z) : Z * Z * Z :=
  let z := (days + 719468)%Z in
  let era := (z / 146097)%Z in
  let doe := (z - era * 146097)%Z in
  let yoe := ((doe - doe / 1460 + doe / 36524 - doe / 146096) / 365)%Z in
  let doy := (doe - (365 * yoe + yoe / 4 - yoe / 100))%Z in
  let mp := ((5 * doy + 2) / 153)%Z in
  let d := (doy - (153 * mp + 2) / 5 + 1)%Z in
  let m := (if (mp <? 10)%Z then mp + 3 else mp - 9)%Z in
  let y := (yoe + era * 400 + (if (m <=? 2)%Z then 1 else 0))%Z in
  (y, m, d).

Definition daysFromCivil (y m d : Z) : Z :=
  let y' := (if (m <=? 2)%Z then y - 1 else y)%Z in
  let era := (y' / 400)%Z in
  let yoe := (y' - era * 400)%Z in
  let mp := (if (2 <? m)%Z then m - 3 else m + 9)%Z in
  let doy := ((153 * mp + 2) / 5 + d - 1)%Z in
  let doe := (yoe * 365 + yoe / 4 - yoe / 100 + doy)%Z in
  (era * 146097 + doe - 719468)%Z.

Definition msPerDay : Z := 86400000.

(** [YYYY-MM-DDTHH:mm:ss.sssZ], with the expanded [±YYYYYY] year outside
    0..9999. *)
Definition toISOString (ms : Z) : string :=
  let '(y, m, d) := civilFromDays (ms / msPerDay) in
  let r := (ms mod msPerDay)%Z in
  let year :=
    if ((0 <=? y) && (y <=? 9999))%Z then pad 4 y
    else (if (y <? 0)%Z then "-" else "+") ++ pad 6 (Z.abs y) in
  year ++ "-" ++ pad 2 m ++ "-" ++ pad 2 d ++ "T"
    ++ pad 2 (r / 3600000) ++ ":" ++ pad 2 ((r / 60000) mod 60) ++ ":"
    ++ pad 2 ((r / 1000) mod 60) ++ "." ++ pad 3 (r mod 1000) ++ "Z".

Definition digitValue (c : ascii) : option Z :=
  let n := Z.of_nat (nat_of_ascii c) in
  if ((48 <=? n) && (n <=? 57))%Z then Some (n - 48)%Z else None.

(** Value of a string of decimal digits. *)
Fixpoint number (s : string) (acc : Z) : option Z :=
  match s with
  | EmptyString => Some acc
  | String c rest =>
      match digitValue c with
      | Some v => number rest (10 * acc + v)%Z
      | None => None
      end
  end.

Definition field (s : string) (start len : nat) : option Z :=
  number (substring start len s) 0.

Definition daysInMonth (y m : Z) : Z :=
  (daysFromCivil (if (m =? 12) then y + 1 else y) (if (m =? 12) then 1 else m + 1) 1
   - daysFromCivil y m 1)%Z.

(** The time value of a timestamp in the 24-character format above. *)
Definition parseIso (s : string) : option Z :=
  if negb (Nat.eqb (String.length s) 24) then None
  else if negb (String.eqb (substring 4 1 s) "-" && String.eqb (substring 7 1 s) "-"
                && String.eqb (substring 10 1 s) "T" && String.eqb (substring 13 1 s) ":"
                && String.eqb (substring 16 1 s) ":" && String.eqb (substring 19 1 s) "."
                && String.eqb (substring 23 1 s) "Z") then None
  else
    match field s 0 4, field s 5 2, field s 8 2, field s 11 2, field s 14 2,
          field s 17 2, field s 20 3 with
    | Some y, Some m, Some d, Some hh, Some mm, Some ss, Some sss =>
        if ((1 <=? m) && (m <=? 12) && (1 <=? d) && (d <=? daysInMonth y m)
            && (hh <=? 23) && (mm <=? 59) && (ss <=? 59))%Z
        then Some (daysFromCivil y m d * msPerDay + hh * 3600000 + mm * 60000
                   + ss * 1000 + sss)%Z
        else None
    | _, _, _, _, _, _, _ => None
    end.

Definition Date_parse (s : string) : float :=
  match parseIso s with
  | Some ms => Z2F ms
  | None => PrimFloat.nan
  end.

(** The empty string is [0]; a string of at most 15 decimal digits is its
    value. *)
Definition StringToNumber (s : string) : float :=
  if Nat.leb (String.length s) 15 then
    match number s 0 with
    | Some n => Z2F n
    | None => PrimFloat.nan
    end
  else PrimFloat.nan.

(** The integer a number denotes, if it denotes one. *)
Definition integerOf (x : float) : option Z :=
  match Prim2SF x with
  | S754_zero _ => Some 0%Z
  | S754_finite s m e =>
      let mag :=
        if (0 <=? e)%Z then Some (Zpos m * 2 ^ e)%Z
        else if (Zpos m mod 2 ^ (- e) =? 0)%Z then Some (Zpos m / 2 ^ (- e))%Z
        else None in
      match mag with
      | Some n => Some (if s then - n else n)%Z
      | None => None
      end
  | _ => None
  end.

Definition NumberToString (x : float) : string :=
  match integerOf x with
  | Some n =>
      if (Z.abs n <? 2 ^ 53)%Z then
        (if (n <? 0)%Z then "-" else "") ++ decimal 16 (Z.abs n) ""
      else "NaN"
  | None =>
      if (x =? PrimFloat.infinity)%float then "Infinity"
      else if (x =? PrimFloat.neg_infinity)%float then "-Infinity"
      else "NaN"
  end.

(** [JSON.parse] on the literal texts; any other text is outside the
    fragment and rejected. *)
Definition JSON_parse (s : string) : result value :=
  if String.eqb s "null" then Ok VNull
  else if String.eqb s "true" then Ok (VBool true)
  else if String.eqb s "false" then Ok (VBool false)
  else if String.eqb s "[]" then Ok (VArr [])
  else if String.eqb s "{}" then Ok (VObj [])
  else Throw SyntaxError.

End Ecma.

Definition ecma : Runtime :=
  {| Date_parse := Ecma.Date_parse;
     toISOString := Ecma.toISOString;
     StringToNumber := Ecma.StringToNumber;
     NumberToString := Ecma.NumberToString |}.


(** ** Sample data

    A five-second timer on the board [kitchen], at the clock reading
    [t0 = 2023-11-14T22:13:20.000Z] and six seconds later. *)

Definition t0 : Z := 1700000000000.

Definition iso0 : string := "2023-11-14T22:13:20.000Z".

Definition iso6 : string := "2023-11-14T22:13:26.000Z".

Definition tea (st : TimerState) (updated : string) (since : option string)
    (elapsed : float) : Timer :=
  {| id := "t1"; label := VStr "Tea"; durationMs := 5000%float; state := st;
     createdAt := iso0; updatedAt := updated; startedAt := since;
     elapsedMs := elapsed |}.

Definition teaIdle : Timer := tea idle iso0 None 0%float.

Definition teaRunning : Timer := tea running iso0 (Some iso0) 0%float.

Definition teaFinished : Timer := tea finished iso6 None 5000%float.

(** What [{action: "create"}] with no duration leaves on the board. *)
Definition instant : Timer :=
  {| id := "t2"; label := VStr "Timer"; durationMs := 0%float; state := idle;
     createdAt := iso0; updatedAt := iso0; startedAt := None;
     elapsedMs := 0%float |}.

Definition kitchen (ts : list Timer) : Board :=
  {| boardId := "kitchen"; timers := ts |}.

(** A store holding one unparseable text. *)
Definition brokenStore : KV :=
  fun key => if String.eqb key "board:kitchen" then Some "{oops" else None.

(** ** The worker: routing, responses and saving

    The [fetch] handler with its helpers [json], [withCors] and [saveBoard].
    The store is one that answers every [get] and [put]. *)

(** What the handler reads of a request: [request.method], the pathname of
    [new URL(request.url)], [request.headers.get("Origin")] and the text
    that [request.json()] parses. *)
Record Request : Type := mkRequest {
  method : string;
  pathname : string;
  origin : option string;
  text : string
}.

(** A [Headers] object: header names are matched without regard to case,
    so they are kept in lower case. *)
Definition Headers : Type := list (string * string).

Definition lowerChar (c : ascii) : ascii :=
  let n := nat_of_ascii c in
  if Nat.leb 65 n && Nat.leb n 90 then ascii_of_nat (n + 32) else c.

Fixpoint lower (s : string) : string :=
  match s with
  | EmptyString => EmptyString
  | String c rest => String (lowerChar c) (lower rest)
  end.

(** [headers.get(name)] *)
Fixpoint Headers_get (name : string) (hs : Headers) : option string :=
  match hs with
  | [] => None
  | (n, v) :: rest => if String.eqb n (lower name) then Some v else Headers_get name rest
  end.

(** [headers.set(name, value)] *)
Fixpoint Headers_set (name value : string) (hs : Headers) : Headers :=
  match hs with
  | [] => [(lower name, value)]
  | (n, v) :: rest =>
      if String.eqb n (lower name) then (n, value) :: rest
      else (n, v) :: Headers_set name value rest
  end.

Record Response : Type := mkResponse {
  content : option string;
  status : nat;
  statusText : string;
  headers : Headers
}.

(** [new Response(body, {status, headers})] for a body that is a string or
    [null]: a string body brings [Content-Type: text/plain;charset=UTF-8]
    when the headers name no content type. *)
Definition newResponse (body : option string) (status : nat) (init : Headers) : Response :=
  {| content := body;
     status := status;
     statusText := "";
     headers :=
       match body, Headers_get "Content-Type" init with
       | Some _, None => Headers_set "Content-Type" "text/plain;charset=UTF-8" init
       | _, _ => init
       end |}.

(** [withCors(response, request)]; the body is passed on as a stream, which
    brings no content type of its own. *)
Definition withCors (response : Response) (request : Request) : Response :=
  let origin :=
    match origin request with
    | Some o => if truthyStr o then o else "*"
    | None => "*"
    end in
  {| content := content response;
     status := status response;
     statusText := statusText response;
     headers :=
       Headers_set "Access-Control-Max-Age" "86400"
         (Headers_set "Access-Control-Allow-Headers" "Content-Type"
            (Headers_set "Access-Control-Allow-Methods" "GET,POST,OPTIONS"
               (Headers_set "Access-Control-Allow-Origin" origin
                  (headers response)))) |}.

(** The rest of [s] after the prefix [p], when [s] starts with [p]. *)
Fixpoint stripPrefix (p s : string) : option string :=
  match p with
  | EmptyString => Some s
  | String c p' =>
      match s with
      | String d s' => if Ascii.eqb c d then stripPrefix p' s' else None
      | EmptyString => None
      end
  end.

(** The characters of [s] before its first ["/"], and what follows them. *)
Fixpoint segment (s : string) : string * string :=
  match s with
  | EmptyString => (EmptyString, EmptyString)
  | String c rest =>
      if Ascii.eqb c "/" then (EmptyString, s)
      else let (a, b) := segment rest in (String c a, b)
  end.

(** [pathname.match(/^\/api\/boards\/([^/]+)\/timers$/)]: the captured
    board id, or nothing when the pathname does not match. *)
Definition matchPath (pathname : string) : option string :=
  match stripPrefix "/api/boards/" pathname with
  | Some rest =>
      let (boardId, tail) := segment rest in
      if truthyStr boardId && String.eqb tail "/timers" then Some boardId else None
  | None => None
  end.

(** *** The engine on stored values

    [JSON.parse(raw) as Board] checks nothing, so [applyCommand] runs on
    whatever the stored text parsed to.  [Any.applyCommand] is
    [applyCommand] read on arbitrary values; on the value of a [Board] it
    does what the typed [applyCommand] does ([applyCommand_on_boards]
    below).  The worker is an ES module, hence strict code: assigning a
    property to a number, a string or a boolean throws a [TypeError]. *)

(** [a === b] for values of two different JSON documents: an object or an
    array of the one is never one of the other. *)
Definition strictEq (a b : value) : bool :=
  match a, b with
  | VUndefined, VUndefined => true
  | VNull, VNull => true
  | VBool x, VBool y => Bool.eqb x y
  | VNum x, VNum y => (x =? y)%float
  | VStr x, VStr y => String.eqb x y
  | _, _ => false
  end.

(** [o.k = v] on the properties of an object: an existing property keeps
    its place, a new one goes last. *)
Fixpoint assign (k : string) (v : value) (props : list (string * value))
    : list (string * value) :=
  match props with
  | [] => [(k, v)]
  | (k', v') :: rest =>
      if String.eqb k k' then (k', v) :: rest else (k', v') :: assign k v rest
  end.

(** The properties of [timerValue t]. *)
Definition timerProps (t : Timer) : list (string * value) :=
  [ ("id", VStr (id t));
    ("label", label t);
    ("durationMs", VNum (durationMs t));
    ("state", VStr (stateName (state t)));
    ("createdAt", VStr (createdAt t));
    ("updatedAt", VStr (updatedAt t));
    ("startedAt", match startedAt t with Some s => VStr s | None => VNull end);
    ("elapsedMs", VNum (elapsedMs t)) ].

Module Any.

(** The timer that a command found: whether properties can be assigned to
    it, and its named properties. *)
Definition Cell : Type := (bool * list (string * value))%type.

(** [timer.k] *)
Definition read (timer : Cell) (k : string) : value :=
  match own k (snd timer) with
  | Some v => v
  | None => VUndefined
  end.

(** [timer.k = v] *)
Definition write (k : string) (v : value) (timer : Cell) : result Cell :=
  if fst timer then Ok (true, assign k v (snd timer)) else Throw TypeError.

Section Engine.
Context {rt : Runtime}.

(** ECMAScript [ToPrimitive]: an array or an object answers with its
    string conversion. *)
Definition ToPrimitive (v : value) : result value :=
  match v with
  | VArr _ | VObj _ => s <- ToString v ;; Ok (VStr s)
  | _ => Ok v
  end.

(** [a + n] for a number [n]: a concatenation when [a] is, or converts
    to, a string. *)
Definition plus (a : value) (n : float) : result value :=
  p <- ToPrimitive a ;;
  match p with
  | VStr s => Ok (VStr (s ++ NumberToString n))
  | _ => x <- ToNumber p ;; Ok (VNum (x + n)%float)
  end.

(** [a >= b]: two strings compare as strings, anything else as numbers. *)
Definition ge (a b : value) : result bool :=
  pa <- ToPrimitive a ;;
  pb <- ToPrimitive b ;;
  match pa, pb with
  | VStr x, VStr y => Ok (negb (String.ltb x y))
  | _, _ => x <- ToNumber pa ;; y <- ToNumber pb ;; Ok (y <=? x)%float
  end.

(** [timer.state === "running" && timer.startedAt] *)
Definition isRunning (timer : Cell) : bool :=
  strictEqStr (read timer "state") "running" && ToBoolean (read timer "startedAt").

Definition effectiveElapsed (timer : Cell) (nowMs : float) : result value :=
  if isRunning timer then
    s <- ToString (read timer "startedAt") ;;
    plus (read timer "elapsedMs") (nowMs - Date_parse s)%float
  else Ok (read timer "elapsedMs").

(** [if (command === "start") { ... }] *)
Definition onStart (nowIso : string) (command : value) (timer : Cell) : result Cell :=
  if strictEqStr command "start" then
    if strictEqStr (read timer "state") "idle"
       || strictEqStr (read timer "state") "paused"
    then
      t1 <- write "startedAt" (VStr nowIso) timer ;;
      write "state" (VStr "running") t1
    else Ok timer
  else Ok timer.

(** [if (command === "pause") { ... }] *)
Definition onPause (nowMs : float) (command : value) (timer : Cell) : result Cell :=
  if strictEqStr command "pause" then
    if isRunning timer then
      s <- ToString (read timer "startedAt") ;;
      e <- plus (read timer "elapsedMs") (nowMs - Date_parse s)%float ;;
      t1 <- write "elapsedMs" e timer ;;
      t2 <- write "startedAt" VNull t1 ;;
      write "state" (VStr "paused") t2
    else Ok timer
  else Ok timer.

(** [if (command === "reset") { ... }] *)
Definition onReset (command : value) (timer : Cell) : result Cell :=
  if strictEqStr command "reset" then
    t1 <- write "elapsedMs" (VNum 0%float) timer ;;
    t2 <- write "startedAt" VNull t1 ;;
    write "state" (VStr "idle") t2
  else Ok timer.

(** Auto-finish if elapsed >= duration *)
Definition autoFinish (nowMs : float) (timer : Cell) : result Cell :=
  elapsed <- effectiveElapsed timer nowMs ;;
  due <- ge elapsed (read timer "durationMs") ;;
  if due then
    t1 <- write "state" (VStr "finished") timer ;;
    t2 <- write "startedAt" VNull t1 ;;
    write "elapsedMs" (read t2 "durationMs") t2
  else Ok timer.

(** Everything the [command] branch does to the timer it found. *)
Definition runCommand (nowMs : float) (nowIso : string) (command : value)
    (timer : Cell) : result Cell :=
  t1 <- onStart nowIso command timer ;;
  t2 <- onPause nowMs command t1 ;;
  t3 <- onReset command t2 ;;
  t4 <- autoFinish nowMs t3 ;;
  write "updatedAt" (VStr nowIso) t4.

(** The element that [find] returned, after [if (!timer) return board] and
    the command.  An object takes the assignments; an array takes them as
    named properties, which are no part of its JSON text; a number, a
    string or a boolean takes none. *)
Definition commandOn (nowMs : float) (nowIso : string) (command : value)
    (t : value) : result value :=
  if ToBoolean t then
    match t with
    | VObj props =>
        timer <- runCommand nowMs nowIso command (true, props) ;;
        Ok (VObj (snd timer))
    | VArr elems =>
        _ <- runCommand nowMs nowIso command (true, []) ;;
        Ok (VArr elems)
    | _ =>
        _ <- runCommand nowMs nowIso command (false, []) ;;
        Ok t
    end
  else Ok t.

(** [board.timers.find((t) => t.id === id)] and the mutation of what it
    returns: elements are visited in order up to the first match, and
    reading [id] of [null] throws. *)
Fixpoint commandFirst (id_ : value) (run : value -> result value)
    (elems : list value) : result (list value) :=
  match elems with
  | [] => Ok []
  | t :: rest =>
      tid <- get t "id" ;;
      if strictEq tid id_ then t' <- run t ;; Ok (t' :: rest)
      else rest' <- commandFirst id_ run rest ;; Ok (t :: rest')
  end.

(** [board.timers.filter((t) => t.id !== id)] *)
Fixpoint removeAll (id_ : value) (elems : list value) : result (list value) :=
  match elems with
  | [] => Ok []
  | t :: rest =>
      tid <- get t "id" ;;
      rest' <- removeAll id_ rest ;;
      Ok (if strictEq tid id_ then rest' else t :: rest')
  end.

(** [board.timers] as the array whose [push], [find] or [filter] is called:
    anything else has no such method and the call throws. *)
Definition timersOf (board : value) : result (list (string * value) * list value) :=
  timers <- get board "timers" ;;
  match board, timers with
  | VObj props, VArr elems => Ok (props, elems)
  | _, _ => Throw TypeError
  end.

(** [applyCommand(board, body)] on any stored value. *)
Definition applyCommand (now : Z) (uuid : string) (board body : value)
    : result value :=
  let nowMs := Z2F now in
  let nowIso := toISOString now in
  action <- optGet body "action" ;;
  if strictEqStr action "create" then
    payload <- get body "payload" ;;
    let p := coalesce payload (VObj []) in
    label <- get p "label" ;;
    durationMs <- get p "durationMs" ;;
    n <- ToNumber durationMs ;;
    bt <- timersOf board ;;
    Ok (VObj (assign "timers"
                (VArr (snd bt ++ [timerValue (newTimer nowIso uuid label n)]))
                (fst bt)))
  else if strictEqStr action "command" then
    payload <- get body "payload" ;;
    let p := coalesce payload (VObj []) in
    id_ <- get p "id" ;;
    command <- get p "command" ;;
    bt <- timersOf board ;;
    elems <- commandFirst id_ (commandOn nowMs nowIso command) (snd bt) ;;
    Ok (VObj (assign "timers" (VArr elems) (fst bt)))
  else if strictEqStr action "delete" then
    payload <- get body "payload" ;;
    let p := coalesce payload (VObj []) in
    id_ <- get p "id" ;;
    bt <- timersOf board ;;
    elems <- removeAll id_ (snd bt) ;;
    Ok (VObj (assign "timers" (VArr elems) (fst bt)))
  else
    Ok board.
End Engine.

End Any.

(** How a call of [fetch] ends. *)
Inductive reply : Type :=
| Responds (response : Response)
| Raises (e : exn).

Section Worker.
Context {rt : Runtime}.
(** [JSON.parse] and [JSON.stringify] *)
Variable JSON_parse : string -> result value.
Variable JSON_stringify : value -> string.

(** [saveBoard(env, boardId, board)]: the store after the [put]. *)
Definition saveBoard (TIMERS : KV) (boardId : string) (board : value) : KV :=
  fun key =>
    if String.eqb key (boardKey boardId) then Some (JSON_stringify board)
    else TIMERS key.

(** [json(data, request)] of the worker with CORS. *)
Definition json (data : value) (request : Request) : Response :=
  withCors
    (newResponse (Some (JSON_stringify data)) 200
       (Headers_set "Content-Type" "application/json" []))
    request.

(** [fetch(request, env)] of the worker with CORS: the store it leaves and
    how it ends. *)
Definition fetch (now : Z) (uuid : string) (request : Request) (TIMERS : KV)
    : KV * reply :=
  match matchPath (pathname request) with
  | None => (TIMERS, Responds (withCors (newResponse (Some "Not found") 404 []) request))
  | Some boardId =>
      if String.eqb (method request) "OPTIONS" then
        (TIMERS, Responds (withCors (newResponse None 204 []) request))
      else if String.eqb (method request) "GET" then
        match loadBoard JSON_parse TIMERS boardId with
        | Ok board => (TIMERS, Responds (json board request))
        | Throw e => (TIMERS, Raises e)
        end
      else if String.eqb (method request) "POST" then
        match JSON_parse (text request) with
        | Throw e => (TIMERS, Raises e)
        | Ok body =>
            match loadBoard JSON_parse TIMERS boardId with
            | Throw e => (TIMERS, Raises e)
            | Ok board =>
                match Any.applyCommand now uuid board body with
                | Throw e => (TIMERS, Raises e)
                | Ok updated =>
                    (saveBoard TIMERS boardId updated,
                     Responds (json updated request))
                end
            end
        end
      else
        (TIMERS,
         Responds (withCors (newResponse (Some "Method not allowed") 405 []) request))
  end.

(** [json(data)] of the worker without CORS (index.ts). *)
Definition json_plain (data : value) : Response :=
  newResponse (Some (JSON_stringify data)) 200
    (Headers_set "Content-Type" "application/json" []).

(** [fetch(request, env)] of the worker without CORS (index.ts). *)
Definition fetch_plain (now : Z) (uuid : string) (request : Request) (TIMERS : KV)
    : KV * reply :=
  match matchPath (pathname request) with
  | None => (TIMERS, Responds (newResponse (Some "Not found") 404 []))
  | Some boardId =>
      if String.eqb (method request) "GET" then
        match loadBoard JSON_parse TIMERS boardId with
        | Ok board => (TIMERS, Responds (json_plain board))
        | Throw e => (TIMERS, Raises e)
        end
      else if String.eqb (method request) "POST" then
        match JSON_parse (text request) with
        | Throw e => (TIMERS, Raises e)
        | Ok body =>
            match loadBoard JSON_parse TIMERS boardId with
            | Throw e => (TIMERS, Raises e)
            | Ok board =>
                match Any.applyCommand now uuid board body with
                | Throw e => (TIMERS, Raises e)
                | Ok updated =>
                    (saveBoard TIMERS boardId updated,
                     Responds (json_plain updated))
                end
            end
        end
      else
        (TIMERS, Responds (newResponse (Some "Method not allowed") 405 []))
  end.
End Worker.

(** ** A JSON reader and writer

    [JSON.parse] and [JSON.stringify] for running the worker on examples:
    objects, arrays, strings, integers and the literals, which is what the
    boards of the examples are made of.  Texts with fractions, exponents or
    escapes beyond two hexadecimal digits are outside the fragment and
    rejected; no theorem depends on it. *)
Module Json.

Definition quote : ascii := ascii_of_nat 34.

Definition backslash : ascii := ascii_of_nat 92.

Definition hexDigit (n : nat) : ascii :=
  if Nat.ltb n 10 then ascii_of_nat (48 + n) else ascii_of_nat (87 + n).

(** How [JSON.stringify] writes one character of a string. *)
Definition escape (c : ascii) : string :=
  let n := nat_of_ascii c in
  if Nat.eqb n 34 then String backslash (String quote EmptyString)
  else if Nat.eqb n 92 then String backslash (String backslash EmptyString)
  else if Nat.eqb n 8 then String backslash "b"
  else if Nat.eqb n 12 then String backslash "f"
  else if Nat.eqb n 10 then String backslash "n"
  else if Nat.eqb n 13 then String backslash "r"
  else if Nat.eqb n 9 then String backslash "t"
  else if Nat.ltb n 32 then
    String backslash
      (String "u" (String "0" (String "0"
         (String (hexDigit (n / 16)) (String (hexDigit (n mod 16)) EmptyString)))))
  else String c EmptyString.

Fixpoint escaped (s : string) : string :=
  match s with
  | EmptyString => EmptyString
  | String c rest => escape c ++ escaped rest
  end.

Definition quoted (s : string) : string :=
  String quote (escaped s ++ String quote EmptyString).

Definition number (n : float) : string :=
  if PrimFloat.is_finite n then Ecma.NumberToString n else "null".

(** [JSON.stringify(v)]; [undefined] is [null] in an array and skipped in
    an object. *)
Fixpoint stringify (v : value) : string :=
  match v with
  | VUndefined => "null"
  | VNull => "null"
  | VBool true => "true"
  | VBool false => "false"
  | VNum n => number n
  | VStr s => quoted s
  | VArr elems =>
      "[" ++
      (fix items (l : list value) : string :=
         match l with
         | [] => ""
         | x :: rest =>
             stringify x ++
             match rest with
             | [] => ""
             | _ :: _ => "," ++ items rest
             end
         end) elems ++ "]"
  | VObj props =>
      "{" ++
      (fix members (l : list (string * value)) (first : bool) : string :=
         match l with
         | [] => ""
         | (k, VUndefined) :: rest => members rest first
         | (k, x) :: rest =>
             (if first then "" else ",") ++ quoted k ++ ":" ++ stringify x
             ++ members rest false
         end) props true ++ "}"
  end.

Definition isWs (c : ascii) : bool :=
  let n := nat_of_ascii c in
  Nat.eqb n 32 || Nat.eqb n 9 || Nat.eqb n 10 || Nat.eqb n 13.

Fixpoint skipWs (s : string) : string :=
  match s with
  | String c rest => if isWs c then skipWs rest else s
  | EmptyString => s
  end.

Definition hexValue (c : ascii) : option nat :=
  let n := nat_of_ascii c in
  if Nat.leb 48 n && Nat.leb n 57 then Some (n - 48)
  else if Nat.leb 97 n && Nat.leb n 102 then Some (n - 87)
  else if Nat.leb 65 n && Nat.leb n 70 then Some (n - 55)
  else None.

(** The characters of a string up to its closing quote, and what follows. *)
Fixpoint readString (s : string) : option (string * string) :=
  match s with
  | EmptyString => None
  | String c rest =>
      if Ascii.eqb c quote then Some (EmptyString, rest)
      else if Ascii.eqb c backslash then
        match rest with
        | String e rest' =>
            let plain (x : ascii) :=
              match readString rest' with
              | Some (str, after) => Some (String x str, after)
              | None => None
              end in
            if Ascii.eqb e quote then plain quote
            else if Ascii.eqb e backslash then plain backslash
            else if Ascii.eqb e "/" then plain "/"%char
            else if Ascii.eqb e "b" then plain (ascii_of_nat 8)
            else if Ascii.eqb e "f" then plain (ascii_of_nat 12)
            else if Ascii.eqb e "n" then plain (ascii_of_nat 10)
            else if Ascii.eqb e "r" then plain (ascii_of_nat 13)
            else if Ascii.eqb e "t" then plain (ascii_of_nat 9)
            else if Ascii.eqb e "u" then
              match rest' with
              | String "0" (String "0" (String h (String l rest''))) =>
                  match hexValue h, hexValue l, readString rest'' with
                  | Some a, Some b, Some (str, after) =>
                      Some (String (ascii_of_nat (16 * a + b)) str, after)
                  | _, _, _ => None
                  end
              | _ => None
              end
            else None
        | EmptyString => None
        end
      else if Nat.ltb (nat_of_ascii c) 32 then None
      else
        match readString rest with
        | Some (str, after) => Some (String c str, after)
        | None => None
        end
  end.

(** The decimal digits at the head of [s], and what follows. *)
Fixpoint readDigits (s : string) : string * string :=
  match s with
  | String c rest =>
      match Ecma.digitValue c with
      | Some _ => let (ds, after) := readDigits rest in (String c ds, after)
      | None => (EmptyString, s)
      end
  | EmptyString => (EmptyString, s)
  end.

(** An integer without superfluous leading zero, not followed by a
    fraction or an exponent. *)
Definition readNumber (s : string) : option (float * string) :=
  let (negative, body) :=
    match s with
    | String "-" rest => (true, rest)
    | _ => (false, s)
    end in
  let (ds, after) := readDigits body in
  let wellFormed :=
    match ds with
    | EmptyString => false
    | String "0" (String _ _) => false
    | _ => Nat.leb (String.length ds) 15
    end in
  let integral :=
    match after with
    | String c _ => negb (Ascii.eqb c "." || Ascii.eqb c "e" || Ascii.eqb c "E")
    | EmptyString => true
    end in
  if wellFormed && integral then
    match Ecma.number ds 0 with
    | Some n => Some (if negative then PrimFloat.opp (Z2F n) else Z2F n, after)
    | None => None
    end
  else None.

(** An object's properties with [k] set to [v]: a repeated key keeps its
    place and takes the later value. *)
Fixpoint setProp (k : string) (v : value) (props : list (string * value))
    : list (string * value) :=
  match props with
  | [] => [(k, v)]
  | (k', v') :: rest =>
      if String.eqb k k' then (k', v) :: rest else (k', v') :: setProp k v rest
  end.

Fixpoint readValue (fuel : nat) (s : string) : option (value * string) :=
  match fuel with
  | O => None
  | S fuel' =>
      match skipWs s with
      | EmptyString => None
      | String c rest =>
          if Ascii.eqb c "{" then
            match skipWs rest with
            | String "}" after => Some (VObj [], after)
            | _ => readMembers fuel' rest []
            end
          else if Ascii.eqb c "[" then
            match skipWs rest with
            | String "]" after => Some (VArr [], after)
            | _ => readElems fuel' rest []
            end
          else if Ascii.eqb c quote then
            match readString rest with
            | Some (str, after) => Some (VStr str, after)
            | None => None
            end
          else
            match stripPrefix "null" (String c rest),
                  stripPrefix "true" (String c rest),
                  stripPrefix "false" (String c rest) with
            | Some after, _, _ => Some (VNull, after)
            | _, Some after, _ => Some (VBool true, after)
            | _, _, Some after => Some (VBool false, after)
            | None, None, None =>
                match readNumber (String c rest) with
                | Some (n, after) => Some (VNum n, after)
                | None => None
                end
            end
      end
  end
with readElems (fuel : nat) (s : string) (acc : list value) : option (value * string) :=
  match fuel with
  | O => None
  | S fuel' =>
      match readValue fuel' s with
      | Some (v, after) =>
          match skipWs after with
          | String "," more => readElems fuel' more (acc ++ [v])
          | String "]" more => Some (VArr (acc ++ [v]), more)
          | _ => None
          end
      | None => None
      end
  end
with readMembers (fuel : nat) (s : string) (acc : list (string * value))
    : option (value * string) :=
  match fuel with
  | O => None
  | S fuel' =>
      match skipWs s with
      | String c rest =>
          if Ascii.eqb c quote then
            match readString rest with
            | Some (k, after) =>
                match skipWs after with
                | String ":" more =>
                    match readValue fuel' more with
                    | Some (v, after') =>
                        match skipWs after' with
                        | String "," more' => readMembers fuel' more' (setProp k v acc)
                        | String "}" more' => Some (VObj (setProp k v acc), more')
                        | _ => None
                        end
                    | None => None
                    end
                | _ => None
                end
            | None => None
            end
          else None
      | EmptyString => None
      end
  end.

(** [JSON.parse(s)] *)
Definition parse (s : string) : result value :=
  match readValue (S (String.length s)) s with
  | Some (v, after) =>
      match skipWs after with
      | EmptyString => Ok v
      | String _ _ => Throw SyntaxError
      end
  | None => Throw SyntaxError
  end.

End Json.

(** *** Sample requests *)

Definition kitchenPath : string := "/api/boards/kitchen/timers".

Definition get_kitchen : Request :=
  {| method := "GET"; pathname := kitchenPath; origin := None; text := "" |}.

(** A [POST] of [{action: "command", payload: {id: "t1", command: "start"}}]
    from the page at [https://timers.example]. *)
Definition post_start : Request :=
  {| method := "POST"; pathname := kitchenPath;
     origin := Some "https://timers.example";
     text := Json.stringify (commandBody "t1" "start") |}.

(** A store holding the board [kitchen] with the idle tea timer. *)
Definition kitchenStore : KV :=
  fun key =>
    if String.eqb key "board:kitchen" then Some (Json.stringify (boardValue (kitchen [teaIdle])))
    else None.

(** The action [{action: "delete", payload: {id}}]. *)
Definition deleteBody (tid : string) : value :=
  VObj [ ("action", VStr "delete"); ("payload", VObj [ ("id", VStr tid) ]) ].

(** A [POST] whose body is not JSON. *)
Definition post_broken : Request :=
  {| method := "POST"; pathname := kitchenPath; origin := None; text := "{oops" |}.

(** A [POST] of [{action: "command", payload: {id: "t1", command: "pause"}}]. *)
Definition post_pause : Request :=
  {| method := "POST"; pathname := kitchenPath; origin := None;
     text := Json.stringify (commandBody "t1" "pause") |}.

(** The store and the answer that [post_start] leaves at [t0]. *)
Definition startedStore : KV :=
  saveBoard Json.stringify kitchenStore "kitchen" (boardValue (kitchen [teaRunning])).

Definition startedReply : Response :=
  json Json.stringify (boardValue (kitchen [teaRunning])) post_start.

(** *** Stored values that are no boards *)

(** A store whose value for [kitchen] is the text of [{}]. *)
Definition bareStore : KV :=
  fun key => if String.eqb key "board:kitchen" then Some (Json.stringify (VObj [])) else None.

(** A [POST] of [[]]. *)
Definition post_list : Request :=
  {| method := "POST"; pathname := kitchenPath; origin := None;
     text := Json.stringify (VArr []) |}.

(** A [POST] of [{action: "create", payload: {durationMs: 5000}}]. *)
Definition post_create : Request :=
  {| method := "POST"; pathname := kitchenPath; origin := None;
     text := Json.stringify (createBody (VNum 5000%float)) |}.

(** The board [kitchen] as it is read back after a timer was created with
    an infinite duration: [JSON.stringify] wrote its [durationMs] as
    [null]. *)
Definition unbounded : value :=
  VObj [ ("boardId", VStr "kitchen");
         ("timers", VArr [ VObj (assign "durationMs" VNull (timerProps teaIdle)) ]) ].

(** A board whose timers are a number, a string and an empty string. *)
Definition scalars : value :=
  VObj [ ("boardId", VStr "kitchen");
         ("timers", VArr [ VNum 5%float; VStr "tea"; VStr "" ]) ].

(** The action [{action: "command", payload: {command}}], which names no
    id. *)
Definition anonymousBody (command : string) : value :=
  VObj [ ("action", VStr "command"); ("payload", VObj [ ("command", VStr command) ]) ].

(** ** Proof automation *)

(** Reduces field reads and field assignments on a timer written out in
    full. *)
Ltac reduce_timer :=
  cbn [set_state set_startedAt set_elapsedMs set_updatedAt
       id label durationMs state createdAt updatedAt startedAt elapsedMs] in *.

(** Decides the comparisons of a literal sub-command. *)
Ltac eval_tests :=
  repeat match goal with
         | |- context [strictEqStr (VStr ?a) ?b] =>
             let r := eval vm_compute in (String.eqb a b) in
             match r with
             | true => change (strictEqStr (VStr a) b) with true
             | false => change (strictEqStr (VStr a) b) with false
             end
         end.

(** Splits on every test in sight. *)
Ltac split_tests :=
  repeat (eval_tests; reduce_timer;
          match goal with
          | |- context [if ?c then _ else _] => destruct c eqn:?
          | |- context [match ?x with _ => _ end] => destruct x eqn:?
          end);
  eval_tests; reduce_timer.

(** Opens the command branch one block at a time, in the order the blocks
    run, so that each block meets a timer written out in full. *)
Ltac open_command :=
  unfold runCommand;
  unfold onStart; split_tests;
  unfold onPause, runningSince; split_tests;
  unfold onReset; split_tests;
  unfold autoFinish, due, effectiveElapsed, runningSince; split_tests;
  unfold consistent in *; reduce_timer.

(** * Properties *)

Local Open Scope list_scope.

(** ** Lists: [find], [filter] and the in-place mutation *)

Section ListFacts.
Variables (p : Timer -> bool) (f : Timer -> Timer).

Lemma mutateFirst_none (l : list Timer) :
  find p l = None -> mutateFirst p f l = l.
Proof.
  induction l as [|x l IH]; simpl; [reflexivity|].
  destruct (p x); [discriminate|].
  intros H. now rewrite IH.
Qed.

Lemma mutateFirst_length (l : list Timer) :
  List.length (mutateFirst p f l) = List.length l.
Proof.
  induction l as [|x l IH]; simpl; [reflexivity|].
  destruct (p x); simpl; congruence.
Qed.

Lemma find_mutateFirst (l : list Timer) (t : Timer) :
  find p l = Some t -> p (f t) = true ->
  find p (mutateFirst p f l) = Some (f t).
Proof.
  induction l as [|x l IH]; simpl; [discriminate|].
  destruct (p x) eqn:Hx; simpl.
  - intros [= ->] Hf. now rewrite Hf.
  - rewrite Hx. exact IH.
Qed.

Lemma find_mutateFirst_other (q : Timer -> bool) (l : list Timer) :
  (forall x, p x = true -> q x = false /\ q (f x) = false) ->
  find q (mutateFirst p f l) = find q l.
Proof.
  intros Hpq.
  induction l as [|x l IH]; simpl; [reflexivity|].
  destruct (p x) eqn:Hx; simpl.
  - destruct (Hpq x Hx) as [-> ->]. reflexivity.
  - now rewrite IH.
Qed.

Lemma nth_error_mutateFirst_other (l : list Timer) (i : nat) (t : Timer) :
  nth_error l i = Some t -> p t = false ->
  nth_error (mutateFirst p f l) i = Some t.
Proof.
  revert i.
  induction l as [|x l IH]; intros [|i]; simpl; try discriminate.
  - intros [= ->] Ht. now rewrite Ht.
  - intros Hn Ht. destruct (p x); simpl; auto.
Qed.

Lemma In_mutateFirst (l : list Timer) (t : Timer) :
  In t l ->
  In t (mutateFirst p f l) \/ (p t = true /\ In (f t) (mutateFirst p f l)).
Proof.
  induction l as [|x l IH]; simpl; [tauto|].
  intros [-> | Hin].
  - destruct (p t) eqn:Ht; simpl; auto.
  - destruct (p x); simpl; [auto|].
    destruct (IH Hin) as [H | [H1 H2]]; auto.
Qed.

Lemma In_mutateFirst_inv (l : list Timer) (t' : Timer) :
  In t' (mutateFirst p f l) ->
  In t' l \/ exists t, In t l /\ p t = true /\ t' = f t.
Proof.
  induction l as [|x l IH]; simpl; [tauto|].
  destruct (p x) eqn:Hx; simpl.
  - intros [<- | Hin]; [right; exists x|]; auto.
  - intros [<- | Hin]; [auto|].
    destruct (IH Hin) as [H | (t & H1 & H2 & H3)]; [auto|].
    right. exists t. auto.
Qed.
End ListFacts.

Lemma find_app_some (q : Timer -> bool) (l l' : list Timer) (t : Timer) :
  find q l = Some t -> find q (l ++ l') = Some t.
Proof.
  induction l as [|x l IH]; simpl; [discriminate|].
  destruct (q x); auto.
Qed.

Lemma find_filter_keep (q keep : Timer -> bool) (l : list Timer) :
  (forall x, q x = true -> keep x = true) ->
  find q (filter keep l) = find q l.
Proof.
  intros Hk.
  induction l as [|x l IH]; simpl; [reflexivity|].
  destruct (keep x) eqn:Hkx; simpl.
  - now rewrite IH.
  - destruct (q x) eqn:Hqx; [|exact IH].
    rewrite (Hk x Hqx) in Hkx. discriminate.
Qed.

(** ** Reading the body *)

Lemma strictEqStr_true (v : value) (s : string) :
  strictEqStr v s = true -> v = VStr s.
Proof.
  destruct v; simpl; try discriminate.
  intros H. apply String.eqb_eq in H. now subst.
Qed.

Lemma hasId_VStr (tid : string) (t : Timer) :
  hasId (VStr tid) t = true -> id t = tid.
Proof.
  unfold hasId. simpl. intros H. apply String.eqb_eq in H. now subst.
Qed.

Lemma lookup_In (b : Board) (tid : string) (t : Timer) :
  lookup b tid = Some t -> In t (timers b).
Proof.
  intros H. now apply find_some in H.
Qed.

Section StepEquations.
Context {rt : Runtime}.
Variables (now : Z) (uuid : string) (b : Board) (body : value).

(** The [create] branch. *)
Lemma applyCommand_create :
  strictEqStr (actionOf body) "create" = true ->
  applyCommand now uuid b body =
    (n <- ToNumber (payloadOf body "durationMs") ;;
     Ok {| boardId := boardId b;
           timers := timers b ++
             [newTimer (toISOString now) uuid (payloadOf body "label") n] |}).
Proof.
  unfold applyCommand, actionOf, payloadOf.
  destruct body as [| | | | | |props]; simpl; try discriminate.
  destruct (own "action" props) as [a|]; simpl; [|discriminate].
  intros ->.
  destruct (own "payload" props) as [pl|]; simpl; [|reflexivity].
  destruct pl as [| | | | | |pp]; simpl; try reflexivity.
  destruct (own "label" pp), (own "durationMs" pp); reflexivity.
Qed.

(** The [command] branch; a lookup that finds nothing mutates nothing. *)
Lemma applyCommand_command :
  strictEqStr (actionOf body) "command" = true ->
  applyCommand now uuid b body =
    Ok {| boardId := boardId b;
          timers := mutateFirst (hasId (payloadOf body "id"))
                      (runCommand (Z2F now) (toISOString now)
                         (payloadOf body "command"))
                      (timers b) |}.
Proof.
  intros H. pose proof (strictEqStr_true _ _ H) as Ha. revert Ha.
  unfold applyCommand, actionOf, payloadOf.
  destruct body as [| | | | | |props]; simpl; try discriminate.
  destruct (own "action" props) as [a|]; simpl; [|discriminate].
  intros ->. simpl.
  assert (Hfind : forall idv cmd,
    match find (hasId idv) (timers b) with
    | Some _ =>
        Ok {| boardId := boardId b;
              timers := mutateFirst (hasId idv)
                (runCommand (Z2F now) (toISOString now) cmd) (timers b) |}
    | None => Ok b
    end =
    Ok {| boardId := boardId b;
          timers := mutateFirst (hasId idv)
            (runCommand (Z2F now) (toISOString now) cmd) (timers b) |}).
  { intros idv cmd. destruct (find (hasId idv) (timers b)) eqn:Hf; [reflexivity|].
    rewrite mutateFirst_none by exact Hf. now destruct b. }
  destruct (own "payload" props) as [pl|]; simpl; [|apply Hfind].
  destruct pl as [| | | | | |pp]; simpl; try apply Hfind.
  destruct (own "id" pp), (own "command" pp); apply Hfind.
Qed.

(** The [delete] branch. *)
Lemma applyCommand_delete :
  strictEqStr (actionOf body) "delete" = true ->
  applyCommand now uuid b body =
    Ok {| boardId := boardId b;
          timers := filter (fun t => negb (hasId (payloadOf body "id") t))
                      (timers b) |}.
Proof.
  intros H. pose proof (strictEqStr_true _ _ H) as Ha. revert Ha.
  unfold applyCommand, actionOf, payloadOf.
  destruct body as [| | | | | |props]; simpl; try discriminate.
  destruct (own "action" props) as [a|]; simpl; [|discriminate].
  intros ->. simpl.
  destruct (own "payload" props) as [pl|]; simpl; [|reflexivity].
  destruct pl as [| | | | | |pp]; simpl; try reflexivity.
  destruct (own "id" pp); reflexivity.
Qed.

(** Unknown action; no change. *)
Lemma applyCommand_other :
  strictEqStr (actionOf body) "create" = false ->
  strictEqStr (actionOf body) "command" = false ->
  strictEqStr (actionOf body) "delete" = false ->
  applyCommand now uuid b body = Ok b.
Proof.
  unfold applyCommand, actionOf.
  destruct body as [| | | | | |props]; simpl; try reflexivity.
  destruct (own "action" props) as [a|]; simpl; [|reflexivity].
  now intros -> -> ->.
Qed.

(** Outside the [create] branch nothing can raise. *)
Lemma returns_unless_create :
  strictEqStr (actionOf body) "create" = false ->
  exists b', applyCommand now uuid b body = Ok b'.
Proof.
  intros Hc.
  destruct (strictEqStr (actionOf body) "command") eqn:Hm;
    [rewrite applyCommand_command by exact Hm; eauto|].
  destruct (strictEqStr (actionOf body) "delete") eqn:Hd;
    [rewrite applyCommand_delete by exact Hd; eauto|].
  rewrite applyCommand_other by assumption. eauto.
Qed.
End StepEquations.

(** ** What a command does to the timer it targets *)

Section CommandFacts.
Context {rt : Runtime}.
Variables (nowMs : float) (nowIso : string) (command : value).

Lemma runCommand_keeps (t : Timer) :
  id (runCommand nowMs nowIso command t) = id t
  /\ label (runCommand nowMs nowIso command t) = label t
  /\ durationMs (runCommand nowMs nowIso command t) = durationMs t
  /\ createdAt (runCommand nowMs nowIso command t) = createdAt t
  /\ updatedAt (runCommand nowMs nowIso command t) = nowIso.
Proof.
  destruct t. open_command; auto.
Qed.

Lemma hasId_runCommand (idv : value) (t : Timer) :
  hasId idv (runCommand nowMs nowIso command t) = hasId idv t.
Proof.
  unfold hasId. now destruct (runCommand_keeps t) as [-> _].
Qed.

Lemma runCommand_consistent (t : Timer) :
  consistent t -> consistent (runCommand nowMs nowIso command t).
Proof.
  destruct t. intros H.
  open_command; subst; split; intros; try congruence; try (apply H; congruence).
Qed.

(** Only [reset] leaves [finished]. *)
Lemma runCommand_stays_finished (t : Timer) :
  state t = finished ->
  strictEqStr command "reset" = false ->
  state (runCommand nowMs nowIso command t) = finished
  /\ (elapsedMs t = durationMs t ->
      elapsedMs (runCommand nowMs nowIso command t) = durationMs t).
Proof.
  destruct t. cbn [state]. intros -> Hr.
  open_command; try discriminate; auto.
Qed.

(** [finished] is entered through the auto-finish rule, which clamps. *)
Lemma runCommand_enters_finished (t : Timer) :
  state (runCommand nowMs nowIso command t) = finished ->
  elapsedMs (runCommand nowMs nowIso command t) = durationMs t
  \/ (state t = finished
      /\ elapsedMs (runCommand nowMs nowIso command t) = elapsedMs t).
Proof.
  destruct t. open_command; intros; subst; auto; discriminate.
Qed.
End CommandFacts.

(** ** Numbers *)

(** A number that is not NaN is [<=] itself. *)
Lemma leb_refl_not_nan (x : float) :
  PrimFloat.is_nan x = false -> (x <=? x)%float = true.
Proof.
  unfold PrimFloat.is_nan. rewrite FloatAxioms.eqb_spec, FloatAxioms.leb_spec.
  unfold SFeqb, SFleb.
  destruct (SFcompare (Prim2SF x) (Prim2SF x)) as [[ | | ]|]; simpl; congruence.
Qed.

Lemma truthyNum_not_nan (n : float) :
  PrimFloat.is_nan (if truthyNum n then n else 0%float) = false.
Proof.
  unfold truthyNum.
  destruct (PrimFloat.is_nan n) eqn:Hn; simpl; [reflexivity|].
  destruct (PrimFloat.is_zero n); simpl; [reflexivity|exact Hn].
Qed.

(** ** One step of the engine, timer by timer *)

Section StepFacts.
Context {rt : Runtime}.
Variables (now : Z) (uuid : string) (b b' : Board) (body : value).
Hypothesis Hstep : applyCommand now uuid b body = Ok b'.

(** The three actions exclude one another. *)
Lemma action_cases :
  (strictEqStr (actionOf body) "create" = true
   /\ exists n, ToNumber (payloadOf body "durationMs") = Ok n
      /\ b' = {| boardId := boardId b;
                 timers := timers b ++
                   [newTimer (toISOString now) uuid (payloadOf body "label") n] |})
  \/ (strictEqStr (actionOf body) "command" = true
      /\ b' = {| boardId := boardId b;
                 timers := mutateFirst (hasId (payloadOf body "id"))
                             (runCommand (Z2F now) (toISOString now)
                                (payloadOf body "command"))
                             (timers b) |})
  \/ (strictEqStr (actionOf body) "delete" = true
      /\ b' = {| boardId := boardId b;
                 timers := filter (fun t => negb (hasId (payloadOf body "id") t))
                             (timers b) |})
  \/ (strictEqStr (actionOf body) "create" = false
      /\ strictEqStr (actionOf body) "command" = false
      /\ strictEqStr (actionOf body) "delete" = false
      /\ b' = b).
Proof.
  destruct (strictEqStr (actionOf body) "create") eqn:Hc.
  { left. split; [reflexivity|].
    rewrite applyCommand_create in Hstep by exact Hc.
    destruct (ToNumber (payloadOf body "durationMs")) as [n|e]; simpl in Hstep;
      [|discriminate].
    exists n. split; congruence. }
  destruct (strictEqStr (actionOf body) "command") eqn:Hm.
  { right; left. split; [reflexivity|].
    rewrite applyCommand_command in Hstep by exact Hm. congruence. }
  destruct (strictEqStr (actionOf body) "delete") eqn:Hd.
  { right; right; left. split; [reflexivity|].
    rewrite applyCommand_delete in Hstep by exact Hd. congruence. }
  right; right; right.
  rewrite applyCommand_other in Hstep by assumption.
  repeat split; congruence.
Qed.

(** A timer that the step does not delete is still on the board, as it
    was, or as the command aimed at it left it. *)
Lemma step_survivor (t : Timer) :
  In t (timers b) ->
  deletes body (id t) = false ->
  In t (timers b')
  \/ (strictEqStr (actionOf body) "command" = true
      /\ payloadOf body "id" = VStr (id t)
      /\ In (runCommand (Z2F now) (toISOString now) (payloadOf body "command") t)
            (timers b')).
Proof.
  intros Hin Hdel.
  destruct action_cases as
    [(_ & n & _ & ->) | [(Hm & ->) | [(Hd & ->) | (_ & _ & _ & ->)]]]; simpl.
  - left. apply in_or_app. now left.
  - destruct (In_mutateFirst (hasId (payloadOf body "id"))
                (runCommand (Z2F now) (toISOString now) (payloadOf body "command"))
                _ _ Hin) as [H | [H1 H2]]; [now left|].
    right. repeat split; try assumption.
    now apply strictEqStr_true in H1.
  - left. apply filter_In. split; [exact Hin|].
    unfold deletes in Hdel. rewrite Hd in Hdel. simpl in Hdel.
    unfold hasId. now rewrite Hdel.
  - now left.
Qed.

(** Every timer of the new board is an old one, the new one, or the
    targeted one after its command. *)
Lemma step_origin (t' : Timer) :
  In t' (timers b') ->
  In t' (timers b)
  \/ (strictEqStr (actionOf body) "create" = true
      /\ exists n, t' = newTimer (toISOString now) uuid (payloadOf body "label") n)
  \/ (strictEqStr (actionOf body) "command" = true
      /\ exists t, In t (timers b)
         /\ t' = runCommand (Z2F now) (toISOString now) (payloadOf body "command") t).
Proof.
  destruct action_cases as
    [(Hc & n & _ & ->) | [(Hm & ->) | [(Hd & ->) | (_ & _ & _ & ->)]]]; simpl;
    intros Hin.
  - apply in_app_or in Hin. destruct Hin as [H | [<- | []]]; [now left|].
    right; left. split; [exact Hc|]. now exists n.
  - apply In_mutateFirst_inv in Hin.
    destruct Hin as [H | (t & H1 & _ & H3)]; [now left|].
    right; right. split; [exact Hm|]. now exists t.
  - apply filter_In in Hin. now left.
  - now left.
Qed.

(** The lookup of an identifier follows its timer through the step. *)
Lemma step_lookup (tid : string) (t : Timer) :
  lookup b tid = Some t ->
  deletes body tid = false ->
  (lookup b' tid = Some t
   /\ (strictEqStr (actionOf body) "command"
       && strictEqStr (payloadOf body "id") tid) = false)
  \/ (lookup b' tid =
        Some (runCommand (Z2F now) (toISOString now) (payloadOf body "command") t)
      /\ strictEqStr (actionOf body) "command" = true
      /\ payloadOf body "id" = VStr tid).
Proof.
  intros Hl Hdel. unfold lookup in *.
  destruct action_cases as
    [(Hc & n & _ & ->) | [(Hm & ->) | [(Hd & ->) | (Hc & Hm & Hd & ->)]]]; simpl.
  - left. split; [now apply find_app_some|].
    destruct (strictEqStr (actionOf body) "command") eqn:Hm; [|reflexivity].
    apply strictEqStr_true in Hc, Hm. congruence.
  - destruct (strictEqStr (payloadOf body "id") tid) eqn:Hid.
    + right. apply strictEqStr_true in Hid. rewrite Hid.
      repeat split; try assumption.
      apply find_mutateFirst; [exact Hl|].
      rewrite hasId_runCommand. now apply find_some in Hl.
    + left. rewrite Hm. split; [|reflexivity].
      rewrite find_mutateFirst_other; [exact Hl|].
      intros x Hx. rewrite hasId_runCommand.
      assert (hasId (VStr tid) x = false); [|tauto].
      destruct (hasId (VStr tid) x) eqn:Hx'; [|reflexivity].
      apply hasId_VStr in Hx'. unfold hasId in Hx. congruence.
  - left. unfold deletes in Hdel. rewrite Hd in Hdel. simpl in Hdel.
    split.
    + rewrite find_filter_keep; [exact Hl|].
      intros x Hx. apply hasId_VStr in Hx. unfold hasId. now rewrite Hx, Hdel.
    + destruct (strictEqStr (actionOf body) "command") eqn:Hm; [|reflexivity].
      apply strictEqStr_true in Hd, Hm. congruence.
  - left. rewrite Hm. auto.
Qed.
End StepFacts.


(** ** The timer state machine *)

Section Claims.
Context {rt : Runtime}.

(** C1. On a board where the running timer [t], started at [s], is the one
    its id designates, a [pause] command issued at a time [now] with
    [t.elapsedMs + (now - parse(s)) >= t.durationMs] leaves the timer
    [finished] (not [paused]), with [elapsedMs] clamped to [durationMs] and
    [startedAt = null]. *)
Theorem pause_past_duration_finishes
    (now : Z) (uuid : string) (b : Board) (t : Timer) (s : string) :
  lookup b (id t) = Some t ->
  state t = running ->
  startedAt t = Some s ->
  truthyStr s = true ->
  (durationMs t <=? elapsedMs t + (Z2F now - Date_parse s))%float = true ->
  exists b' t',
    applyCommand now uuid b (commandBody (id t) "pause") = Ok b'
    /\ lookup b' (id t) = Some t'
    /\ state t' = finished
    /\ elapsedMs t' = durationMs t
    /\ startedAt t' = None
    /\ durationMs t' = durationMs t.
Proof.
  intros Hl Hst Hsa Hs Hdue.
  rewrite applyCommand_command by reflexivity.
  change (payloadOf (commandBody (id t) "pause") "id") with (VStr (id t)).
  change (payloadOf (commandBody (id t) "pause") "command") with (VStr "pause").
  eexists. eexists. split; [reflexivity|]. split.
  - unfold lookup. simpl. apply find_mutateFirst; [exact Hl|].
    rewrite hasId_runCommand. now apply find_some in Hl.
  - clear Hl. destruct t. reduce_timer. subst.
    unfold runCommand, onStart. eval_tests. reduce_timer.
    unfold onPause, runningSince. eval_tests. reduce_timer. rewrite Hs.
    unfold onReset. eval_tests. reduce_timer.
    unfold autoFinish, due, effectiveElapsed, runningSince. reduce_timer.
    rewrite Hdue. reduce_timer. auto.
Qed.

(** C2. If every timer of a board has [startedAt] non-null exactly when its
    state is [running], the same holds of every timer of the board that
    [applyCommand] returns, whatever the body. *)
Theorem consistency_preserved
    (now : Z) (uuid : string) (b b' : Board) (body : value) :
  Forall consistent (timers b) ->
  applyCommand now uuid b body = Ok b' ->
  Forall consistent (timers b').
Proof.
  intros Hall Hstep. rewrite Forall_forall in *.
  intros t' Hin.
  destruct (step_origin _ _ _ _ _ Hstep t' Hin)
    as [H | [(_ & n & ->) | (_ & t & Ht & ->)]].
  - now apply Hall.
  - unfold consistent. simpl. split; [congruence|discriminate].
  - apply runCommand_consistent. now apply Hall.
Qed.

(** On a reachable board a duration is never NaN, and a finished timer sits
    exactly at its duration. *)
Lemma reachable_clamped (b : Board) :
  reachable b ->
  forall t, In t (timers b) ->
    PrimFloat.is_nan (durationMs t) = false
    /\ (state t = finished -> elapsedMs t = durationMs t).
Proof.
  induction 1 as [bid | b b' now uuid body _ IH Hstep]; [intros t []|].
  intros t' Hin.
  destruct (step_origin _ _ _ _ _ Hstep t' Hin)
    as [H | [(_ & n & ->) | (_ & t & Ht & ->)]].
  - now apply IH.
  - simpl. split; [apply truthyNum_not_nan|discriminate].
  - destruct (IH t Ht) as [Hnan Hfin].
    destruct (runCommand_keeps (Z2F now) (toISOString now)
                (payloadOf body "command") t) as (_ & _ & Hd & _).
    rewrite Hd. split; [exact Hnan|].
    intros Hf. apply runCommand_enters_finished in Hf.
    destruct Hf as [Hf | [Hs Hf]]; [exact Hf|].
    rewrite Hf. now apply Hfin.
Qed.

(** C3. On a board reachable from the empty board, every finished timer has
    [elapsedMs] equal to, hence not exceeding, [durationMs]; the step on
    which a timer becomes finished sets [elapsedMs] to [durationMs]; and a
    finished timer stays finished at [elapsedMs = durationMs] through
    every step that neither resets nor deletes it. *)
Theorem finished_is_clamped (b : Board) :
  reachable b ->
  (forall t, In t (timers b) -> state t = finished ->
     elapsedMs t = durationMs t
     /\ (elapsedMs t <=? durationMs t)%float = true)
  /\ (forall now uuid body b' tid t t',
        applyCommand now uuid b body = Ok b' ->
        lookup b tid = Some t ->
        lookup b' tid = Some t' ->
        state t <> finished ->
        state t' = finished ->
        elapsedMs t' = durationMs t' /\ durationMs t' = durationMs t)
  /\ (forall now uuid body b' tid t,
        applyCommand now uuid b body = Ok b' ->
        lookup b tid = Some t ->
        state t = finished ->
        resets body tid = false ->
        deletes body tid = false ->
        exists t',
          lookup b' tid = Some t'
          /\ state t' = finished
          /\ elapsedMs t' = durationMs t'
          /\ durationMs t' = durationMs t).
Proof.
  intros Hreach. split; [|split].
  - intros t Hin Hf.
    destruct (reachable_clamped b Hreach t Hin) as [Hnan Heq].
    rewrite (Heq Hf). split; [reflexivity|]. now apply leb_refl_not_nan.
  - intros now uuid body b' tid t t' Hstep Hl Hl' Hnf Hf.
    assert (Hdel : deletes body tid = false).
    { destruct (deletes body tid) eqn:Hdel; [|reflexivity].
      unfold deletes in Hdel. apply andb_prop in Hdel. destruct Hdel as [Hd Hid].
      rewrite applyCommand_delete in Hstep by exact Hd.
      injection Hstep as <-. apply find_some in Hl'. simpl in Hl'.
      destruct Hl' as [Hin Hid']. apply filter_In in Hin.
      apply hasId_VStr in Hid'. unfold hasId in Hin.
      rewrite Hid', Hid in Hin. now destruct Hin. }
    destruct (step_lookup _ _ _ _ _ Hstep tid t Hl Hdel)
      as [[H _] | (H & _ & _)]; rewrite H in Hl'; injection Hl' as <-.
    + contradiction.
    + destruct (runCommand_keeps (Z2F now) (toISOString now)
                  (payloadOf body "command") t) as (_ & _ & Hd & _).
      rewrite Hd. split; [|reflexivity].
      apply runCommand_enters_finished in Hf. tauto.
  - intros now uuid body b' tid t Hstep Hl Hf Hres Hdel.
    pose proof (lookup_In _ _ _ Hl) as Hin.
    destruct (reachable_clamped b Hreach t Hin) as [_ Heq].
    destruct (step_lookup _ _ _ _ _ Hstep tid t Hl Hdel)
      as [[H _] | (H & Hm & Hid)].
    + exists t. auto.
    + eexists. split; [exact H|].
      unfold resets in Hres. rewrite Hm, Hid in Hres. simpl in Hres.
      rewrite String.eqb_refl in Hres. simpl in Hres.
      destruct (runCommand_keeps (Z2F now) (toISOString now)
                  (payloadOf body "command") t) as (_ & _ & Hd & _).
      destruct (runCommand_stays_finished (Z2F now) (toISOString now)
                  (payloadOf body "command") t Hf Hres) as [Hs He].
      rewrite Hd. repeat split; auto.
Qed.
End Claims.


Section MoreClaims.
Context {rt : Runtime}.

Lemma mutateFirst_ext (p : Timer -> bool) (f g : Timer -> Timer) (l : list Timer) :
  (forall t, f t = g t) -> mutateFirst p f l = mutateFirst p g l.
Proof.
  intros Hfg. induction l as [|x l IH]; simpl; [reflexivity|].
  destruct (p x); congruence.
Qed.

(** C4, as the code has it.  A body whose action is not [create] never
    raises.  A body whose action is none of [create], [command], [delete],
    and a [command] whose id matches no timer, return the board unchanged.
    A [command] whose sub-command is none of [start], [pause], [reset]
    still runs the auto-finish check on the timer it finds and refreshes
    its [updatedAt]: that timer gets [updatedAt = now]; when its effective
    elapsed time is [>=] its duration it becomes [finished] with
    [startedAt = null] and [elapsedMs = durationMs], and otherwise keeps its
    state, [startedAt] and [elapsedMs]; its other fields and the other
    timers are unchanged. *)
Theorem unrecognized_input
    (now : Z) (uuid : string) (b : Board) (body : value) :
  (strictEqStr (actionOf body) "create" = false ->
     exists b', applyCommand now uuid b body = Ok b')
  /\ (strictEqStr (actionOf body) "create" = false ->
      strictEqStr (actionOf body) "command" = false ->
      strictEqStr (actionOf body) "delete" = false ->
      applyCommand now uuid b body = Ok b)
  /\ (strictEqStr (actionOf body) "command" = true ->
      find (hasId (payloadOf body "id")) (timers b) = None ->
      applyCommand now uuid b body = Ok b)
  /\ (strictEqStr (actionOf body) "command" = true ->
      strictEqStr (payloadOf body "command") "start" = false ->
      strictEqStr (payloadOf body "command") "pause" = false ->
      strictEqStr (payloadOf body "command") "reset" = false ->
      applyCommand now uuid b body =
        Ok {| boardId := boardId b;
              timers := mutateFirst (hasId (payloadOf body "id"))
                          (fun t => set_updatedAt (toISOString now)
                                      (autoFinish (Z2F now) t))
                          (timers b) |})
  /\ (forall tid t,
        strictEqStr (actionOf body) "command" = true ->
        strictEqStr (payloadOf body "command") "start" = false ->
        strictEqStr (payloadOf body "command") "pause" = false ->
        strictEqStr (payloadOf body "command") "reset" = false ->
        payloadOf body "id" = VStr tid ->
        lookup b tid = Some t ->
        exists b' t',
          applyCommand now uuid b body = Ok b'
          /\ boardId b' = boardId b
          /\ List.length (timers b') = List.length (timers b)
          /\ (forall i x, nth_error (timers b) i = Some x -> id x <> tid ->
                nth_error (timers b') i = Some x)
          /\ lookup b' tid = Some t'
          /\ id t' = id t /\ label t' = label t /\ durationMs t' = durationMs t
          /\ createdAt t' = createdAt t
          /\ updatedAt t' = toISOString now
          /\ if (durationMs t <=? effectiveElapsed t (Z2F now))%float
             then state t' = finished /\ startedAt t' = None
                  /\ elapsedMs t' = durationMs t
             else state t' = state t /\ startedAt t' = startedAt t
                  /\ elapsedMs t' = elapsedMs t).
Proof.
  assert (Hshape : strictEqStr (payloadOf body "command") "start" = false ->
                   strictEqStr (payloadOf body "command") "pause" = false ->
                   strictEqStr (payloadOf body "command") "reset" = false ->
                   forall t,
                     runCommand (Z2F now) (toISOString now) (payloadOf body "command") t
                     = set_updatedAt (toISOString now) (autoFinish (Z2F now) t)).
  { intros Hs Hp Hr t. unfold runCommand, onReset, onPause, onStart.
    now rewrite Hs, Hp, Hr. }
  split; [|split; [|split; [|split]]].
  - apply returns_unless_create.
  - apply applyCommand_other.
  - intros Hm Hf. rewrite applyCommand_command by exact Hm.
    rewrite mutateFirst_none by exact Hf. now destruct b.
  - intros Hm Hs Hp Hr. rewrite applyCommand_command by exact Hm.
    f_equal. f_equal. apply mutateFirst_ext. now apply Hshape.
  - intros tid t Hm Hs Hp Hr Hid Hl.
    rewrite applyCommand_command by exact Hm. rewrite Hid.
    eexists. exists (set_updatedAt (toISOString now) (autoFinish (Z2F now) t)).
    split; [reflexivity|]. cbn [boardId timers].
    split; [reflexivity|]. split; [apply mutateFirst_length|]. split.
    { intros i x Hx Hne. apply nth_error_mutateFirst_other; [exact Hx|].
      unfold hasId. simpl. apply String.eqb_neq. congruence. }
    split.
    { unfold lookup. cbn [timers]. rewrite <- (Hshape Hs Hp Hr t).
      apply find_mutateFirst; [exact Hl|].
      rewrite hasId_runCommand. now apply find_some in Hl. }
    clear Hl. unfold autoFinish, due.
    destruct (durationMs t <=? effectiveElapsed t (Z2F now))%float;
      destruct t; reduce_timer; repeat split.
Qed.

(** C5, as the code has it.  A [reset] command always leaves
    [startedAt = null]; it leaves the timer [idle] with [elapsedMs = 0]
    when [0 >= durationMs] is false, and otherwise the auto-finish check
    that follows turns it [finished] with [elapsedMs = durationMs]. *)
Theorem reset_rewinds
    (now : Z) (uuid : string) (b : Board) (tid : string) (t : Timer) :
  lookup b tid = Some t ->
  exists b' t',
    applyCommand now uuid b (commandBody tid "reset") = Ok b'
    /\ lookup b' tid = Some t'
    /\ startedAt t' = None
    /\ if (durationMs t <=? 0)%float
       then state t' = finished /\ elapsedMs t' = durationMs t
       else state t' = idle /\ elapsedMs t' = 0%float.
Proof.
  intros Hl.
  rewrite applyCommand_command by reflexivity.
  change (payloadOf (commandBody tid "reset") "id") with (VStr tid).
  change (payloadOf (commandBody tid "reset") "command") with (VStr "reset").
  eexists. eexists. split; [reflexivity|]. split.
  - unfold lookup. simpl. apply find_mutateFirst; [exact Hl|].
    rewrite hasId_runCommand. now apply find_some in Hl.
  - clear Hl. destruct t. open_command; try discriminate; auto.
Qed.

(** A [start] command on a timer at rest. *)
Lemma start_from_rest (nowMs : float) (nowIso : string) (t : Timer) :
  state t = idle \/ state t = paused ->
  if due nowMs (onStart nowIso (VStr "start") t)
  then state (runCommand nowMs nowIso (VStr "start") t) = finished
       /\ startedAt (runCommand nowMs nowIso (VStr "start") t) = None
  else state (runCommand nowMs nowIso (VStr "start") t) = running
       /\ startedAt (runCommand nowMs nowIso (VStr "start") t) = Some nowIso.
Proof.
  destruct t. reduce_timer.
  intros [-> | ->]; unfold runCommand, onStart; eval_tests; reduce_timer;
    unfold onPause, runningSince; eval_tests; reduce_timer;
    unfold onReset; eval_tests; reduce_timer;
    unfold autoFinish;
    match goal with |- context [due ?n ?t] => destruct (due n t) end;
    reduce_timer; auto.
Qed.

(** A [start] command on a running timer. *)
Lemma start_while_running (nowMs : float) (nowIso : string) (t : Timer) :
  state t = running ->
  if due nowMs t
  then state (runCommand nowMs nowIso (VStr "start") t) = finished
       /\ startedAt (runCommand nowMs nowIso (VStr "start") t) = None
  else state (runCommand nowMs nowIso (VStr "start") t) = running
       /\ startedAt (runCommand nowMs nowIso (VStr "start") t) = startedAt t.
Proof.
  destruct t. reduce_timer. intros ->.
  unfold runCommand, onStart; eval_tests; reduce_timer.
  unfold onPause, runningSince; eval_tests; reduce_timer.
  unfold onReset; eval_tests; reduce_timer.
  unfold autoFinish.
  match goal with |- context [due ?n ?t] => destruct (due n t) end;
    reduce_timer; auto.
Qed.

(** C6, as the code has it.  A first [start] on an idle or paused timer
    sets [startedAt] to the current time and the state to [running]; a
    second [start] changes neither.  After each of the two commands the
    auto-finish check runs, and when the effective elapsed time has
    reached [durationMs] it turns the timer [finished] with
    [startedAt = null]. *)
Theorem start_twice
    (now1 now2 : Z) (u1 u2 : string) (b : Board) (tid : string) (t : Timer) :
  lookup b tid = Some t ->
  state t = idle \/ state t = paused ->
  exists b1 t1 b2 t2,
    applyCommand now1 u1 b (commandBody tid "start") = Ok b1
    /\ lookup b1 tid = Some t1
    /\ applyCommand now2 u2 b1 (commandBody tid "start") = Ok b2
    /\ lookup b2 tid = Some t2
    /\ (if due (Z2F now1) (onStart (toISOString now1) (VStr "start") t)
        then state t1 = finished /\ startedAt t1 = None
        else state t1 = running /\ startedAt t1 = Some (toISOString now1))
    /\ (state t1 = running ->
        if due (Z2F now2) t1
        then state t2 = finished /\ startedAt t2 = None
        else state t2 = running /\ startedAt t2 = startedAt t1).
Proof.
  intros Hl Hst.
  rewrite applyCommand_command by reflexivity.
  change (payloadOf (commandBody tid "start") "id") with (VStr tid).
  change (payloadOf (commandBody tid "start") "command") with (VStr "start").
  pose proof (find_some _ _ Hl) as [_ Hid].
  assert (Hl1 : lookup
            {| boardId := boardId b;
               timers := mutateFirst (hasId (VStr tid))
                 (runCommand (Z2F now1) (toISOString now1) (VStr "start"))
                 (timers b) |} tid
          = Some (runCommand (Z2F now1) (toISOString now1) (VStr "start") t)).
  { unfold lookup. simpl. apply find_mutateFirst; [exact Hl|].
    now rewrite hasId_runCommand. }
  eexists. exists (runCommand (Z2F now1) (toISOString now1) (VStr "start") t).
  eexists.
  exists (runCommand (Z2F now2) (toISOString now2) (VStr "start")
            (runCommand (Z2F now1) (toISOString now1) (VStr "start") t)).
  split; [reflexivity|]. split; [exact Hl1|].
  rewrite applyCommand_command by reflexivity.
  change (payloadOf (commandBody tid "start") "id") with (VStr tid).
  change (payloadOf (commandBody tid "start") "command") with (VStr "start").
  split; [reflexivity|]. split.
  { unfold lookup. simpl. apply find_mutateFirst; [exact Hl1|].
    now rewrite !hasId_runCommand. }
  clear Hl Hl1 Hid. split.
  - now apply start_from_rest.
  - apply start_while_running.
Qed.

(** C7. A [create] action appends a timer in state [idle] (whatever its
    duration) and so never makes a timer finished; a finished timer is still
    on the board and still finished after every step that is neither a
    [reset] command aimed at it nor a [delete] of it. *)
Theorem finished_entry_and_exit
    (now : Z) (uuid : string) (b b' : Board) (body : value) :
  applyCommand now uuid b body = Ok b' ->
  (strictEqStr (actionOf body) "create" = true ->
     exists t, timers b' = timers b ++ [t] /\ state t = idle)
  /\ (forall t, In t (timers b) -> state t = finished ->
        resets body (id t) = false ->
        deletes body (id t) = false ->
        exists t', In t' (timers b')
          /\ id t' = id t /\ createdAt t' = createdAt t
          /\ state t' = finished).
Proof.
  intros Hstep. split.
  - intros Hc. rewrite applyCommand_create in Hstep by exact Hc.
    destruct (ToNumber (payloadOf body "durationMs")) as [n|e]; simpl in Hstep;
      [|discriminate].
    injection Hstep as <-. simpl. eauto.
  - intros t Hin Hf Hres Hdel.
    destruct (step_survivor _ _ _ _ _ Hstep t Hin Hdel) as [H | (Hm & Hid & H)].
    + exists t. auto.
    + eexists. split; [exact H|].
      unfold resets in Hres. rewrite Hm, Hid in Hres. simpl in Hres.
      rewrite String.eqb_refl in Hres. simpl in Hres.
      destruct (runCommand_keeps (Z2F now) (toISOString now)
                  (payloadOf body "command") t) as (Hi & _ & _ & Hc & _).
      destruct (runCommand_stays_finished (Z2F now) (toISOString now)
                  (payloadOf body "command") t Hf Hres) as [Hs _].
      auto.
Qed.

(** C8, as the code has it.  The timer that a [create] action appends has
    [durationMs = Number(payload.durationMs) || 0]: [0] when the payload's
    value converts to NaN or to zero, and the converted number itself
    otherwise, negative or fractional values included.  It is never NaN. *)
Theorem create_duration
    (now : Z) (uuid : string) (b b' : Board) (body : value) :
  strictEqStr (actionOf body) "create" = true ->
  applyCommand now uuid b body = Ok b' ->
  exists n t,
    ToNumber (payloadOf body "durationMs") = Ok n
    /\ timers b' = timers b ++ [t]
    /\ durationMs t =
         (if PrimFloat.is_nan n || PrimFloat.is_zero n then 0%float else n)
    /\ PrimFloat.is_nan (durationMs t) = false.
Proof.
  intros Hc Hstep. rewrite applyCommand_create in Hstep by exact Hc.
  destruct (ToNumber (payloadOf body "durationMs")) as [n|e]; simpl in Hstep;
    [|discriminate].
  injection Hstep as <-. simpl.
  exists n. eexists. split; [reflexivity|]. split; [reflexivity|]. simpl.
  split; [|apply truthyNum_not_nan].
  unfold truthyNum. now destruct (PrimFloat.is_nan n || PrimFloat.is_zero n).
Qed.

(** C10. [applyCommand] keeps the [boardId].  A [command] action changes no
    timer whose id differs from the payload id, and moves none; a [create]
    action appends one timer after the existing ones; a [delete] action
    keeps, in order, exactly the timers whose id differs from the payload
    id. *)
Theorem frame
    (now : Z) (uuid : string) (b b' : Board) (body : value) :
  applyCommand now uuid b body = Ok b' ->
  boardId b' = boardId b
  /\ (strictEqStr (actionOf body) "command" = true ->
      List.length (timers b') = List.length (timers b)
      /\ forall i t, nth_error (timers b) i = Some t ->
           hasId (payloadOf body "id") t = false ->
           nth_error (timers b') i = Some t)
  /\ (strictEqStr (actionOf body) "create" = true ->
      exists t, timers b' = timers b ++ [t])
  /\ (strictEqStr (actionOf body) "delete" = true ->
      timers b' = filter (fun t => negb (hasId (payloadOf body "id") t)) (timers b)).
Proof.
  intros Hstep. split; [|split; [|split]].
  - destruct (action_cases _ _ _ _ _ Hstep) as
      [(_ & n & _ & ->) | [(_ & ->) | [(_ & ->) | (_ & _ & _ & ->)]]]; reflexivity.
  - intros Hm. rewrite applyCommand_command in Hstep by exact Hm.
    injection Hstep as <-. simpl. split; [apply mutateFirst_length|].
    intros i t. apply nth_error_mutateFirst_other.
  - intros Hc. rewrite applyCommand_create in Hstep by exact Hc.
    destruct (ToNumber (payloadOf body "durationMs")) as [n|e]; simpl in Hstep;
      [|discriminate].
    injection Hstep as <-. simpl. eauto.
  - intros Hd. rewrite applyCommand_delete in Hstep by exact Hd.
    now injection Hstep as <-.
Qed.
End MoreClaims.

(** ** Loading a board *)

Section Loading.
Variable JSON_parse : string -> result value.

(** C9. When the store holds nothing under ["board:" + boardId], or holds a
    text that [JSON.parse] rejects, [loadBoard] returns the empty board
    [{boardId, timers: []}] and raises nothing. *)
Theorem loadBoard_defaults (TIMERS : KV) (boardId : string) :
  TIMERS ("board:" ++ boardId)%string = None
  \/ (exists raw e, TIMERS ("board:" ++ boardId)%string = Some raw
        /\ JSON_parse raw = Throw e) ->
  loadBoard JSON_parse TIMERS boardId =
    Ok (VObj [ ("boardId", VStr boardId); ("timers", VArr []) ]).
Proof.
  unfold loadBoard, boardKey.
  intros [-> | (raw & e & -> & Hp)]; [reflexivity|].
  rewrite Hp. now destruct (truthyStr raw).
Qed.
End Loading.

(** * The model at work *)

(** ** The scenarios of the specification, on the concrete runtime *)

Example scenario_create :
  @applyCommand ecma t0 "t1" (emptyBoard "kitchen")
    (VObj [ ("action", VStr "create");
            ("payload", VObj [ ("label", VStr "Tea");
                               ("durationMs", VNum 5000%float) ]) ])
  = Ok (kitchen [teaIdle]).
Proof. vm_compute. reflexivity. Qed.

Example scenario_start :
  @applyCommand ecma t0 "u" (kitchen [teaIdle]) (commandBody "t1" "start")
  = Ok (kitchen [teaRunning]).
Proof. vm_compute. reflexivity. Qed.

Example scenario_pause_late :
  @applyCommand ecma (t0 + 6000) "u" (kitchen [teaRunning]) (commandBody "t1" "pause")
  = Ok (kitchen [teaFinished]).
Proof. vm_compute. reflexivity. Qed.

Example scenario_clamped :
  exists b1 b2 b3 b4,
    @applyCommand ecma t0 "u" (kitchen [teaIdle]) (commandBody "t1" "start") = Ok b1
    /\ @applyCommand ecma (t0 + 2000) "u" b1 (commandBody "t1" "pause") = Ok b2
    /\ @applyCommand ecma (t0 + 4000) "u" b2 (commandBody "t1" "start") = Ok b3
    /\ @applyCommand ecma (t0 + 8000) "u" b3 (commandBody "t1" "pause") = Ok b4
    /\ map state (timers b2) = [paused]
    /\ map elapsedMs (timers b2) = [2000%float]
    /\ map state (timers b4) = [finished]
    /\ map elapsedMs (timers b4) = [5000%float].
Proof.
  do 4 eexists.
  split; [vm_compute; reflexivity|].
  split; [vm_compute; reflexivity|].
  split; [vm_compute; reflexivity|].
  split; [vm_compute; reflexivity|].
  repeat split.
Qed.

Example timestamps_round_trip :
  Ecma.toISOString t0 = iso0
  /\ Ecma.toISOString (t0 + 6000) = iso6
  /\ Ecma.Date_parse iso0 = Z2F t0
  /\ Ecma.Date_parse iso6 = Z2F (t0 + 6000).
Proof. vm_compute. repeat split. Qed.

(** ** Where [create] raises *)

(** [Number(durationMs)] throws on an object whose [toString] is not
    callable, and [applyCommand] with it. *)
Lemma create_raises {rt : Runtime} (now : Z) (uuid : string) (b : Board)
    (props : list (string * value)) (x : value) :
  own "toString" props = Some x ->
  applyCommand now uuid b (createBody (VObj props)) = Throw TypeError.
Proof.
  intros H. rewrite applyCommand_create by reflexivity.
  change (payloadOf (createBody (VObj props)) "durationMs") with (VObj props).
  unfold ToNumber, ToString. now rewrite H.
Qed.

(** Nothing else raises. *)
Lemma raises_only_in_create {rt : Runtime} (now : Z) (uuid : string) (b : Board)
    (body : value) (e : exn) :
  applyCommand now uuid b body = Throw e ->
  strictEqStr (actionOf body) "create" = true
  /\ ToNumber (payloadOf body "durationMs") = Throw e.
Proof.
  intros H.
  destruct (strictEqStr (actionOf body) "create") eqn:Hc.
  - rewrite applyCommand_create in H by exact Hc.
    destruct (ToNumber (payloadOf body "durationMs")); [discriminate|].
    simpl in H. split; congruence.
  - destruct (returns_unless_create now uuid b body Hc) as [b' Hb].
    congruence.
Qed.

Example create_raises_on_kitchen :
  @applyCommand ecma t0 "t1" (emptyBoard "kitchen")
    (createBody (VObj [ ("toString", VNum 0%float) ]))
  = Throw TypeError.
Proof. reflexivity. Qed.

Example scenario_create_default :
  @applyCommand ecma t0 "t2" (emptyBoard "kitchen") (VObj [ ("action", VStr "create") ])
  = Ok (kitchen [instant]).
Proof. vm_compute. reflexivity. Qed.

Example scenario_snooze :
  @applyCommand ecma (t0 + 6000) "u" (kitchen [teaRunning]) (commandBody "t1" "snooze")
  = Ok (kitchen [teaFinished]).
Proof. vm_compute. reflexivity. Qed.

Example scenario_pause_beside :
  @applyCommand ecma (t0 + 6000) "u" (kitchen [teaRunning; instant])
    (commandBody "t1" "pause")
  = Ok (kitchen [teaFinished; instant]).
Proof. vm_compute. reflexivity. Qed.

Example scenario_start_finished :
  @applyCommand ecma (t0 + 6000) "u" (kitchen [teaFinished]) (commandBody "t1" "start")
  = Ok (kitchen [teaFinished]).
Proof. vm_compute. reflexivity. Qed.

Lemma kitchen_reachable : @reachable ecma (kitchen [teaFinished]).
Proof.
  eapply reach_step; [|exact scenario_pause_late].
  eapply reach_step; [|exact scenario_start].
  eapply reach_step; [|exact scenario_create].
  apply reach_empty.
Qed.

Lemma teaRunning_consistent : consistent teaRunning.
Proof. split; [reflexivity|discriminate]. Qed.

(** ** The theorems at concrete inputs *)

Lemma pause_past_duration_finishes_witness :
  exists b' t',
    @applyCommand ecma (t0 + 6000) "u" (kitchen [teaRunning]) (commandBody "t1" "pause")
      = Ok b'
    /\ lookup b' "t1" = Some t'
    /\ state t' = finished
    /\ elapsedMs t' = 5000%float
    /\ startedAt t' = None
    /\ durationMs t' = 5000%float.
Proof.
  apply (@pause_past_duration_finishes ecma (t0 + 6000)%Z "u"
           (kitchen [teaRunning]) teaRunning iso0);
    vm_compute; reflexivity.
Defined.

Lemma consistency_preserved_witness :
  Forall consistent (timers (kitchen [teaFinished])).
Proof.
  apply (@consistency_preserved ecma (t0 + 6000)%Z "u"
           (kitchen [teaRunning]) (kitchen [teaFinished]) (commandBody "t1" "pause")).
  - constructor; [exact teaRunning_consistent|constructor].
  - exact scenario_pause_late.
Defined.

Lemma finished_is_clamped_witness :
  (elapsedMs teaFinished = durationMs teaFinished
   /\ (elapsedMs teaFinished <=? durationMs teaFinished)%float = true)
  /\ exists t',
       lookup (kitchen [teaFinished]) "t1" = Some t'
       /\ state t' = finished
       /\ elapsedMs t' = durationMs t'
       /\ durationMs t' = durationMs teaFinished.
Proof.
  destruct (@finished_is_clamped ecma (kitchen [teaFinished]) kitchen_reachable)
    as (Hin & _ & Hstay).
  split.
  - apply Hin; [left; reflexivity|reflexivity].
  - apply (Hstay (t0 + 6000)%Z "u" (commandBody "t1" "start") (kitchen [teaFinished])
             "t1" teaFinished);
      [exact scenario_start_finished|reflexivity..].
Defined.

Lemma unrecognized_input_witness :
  @applyCommand ecma t0 "u" (kitchen [teaRunning]) (VStr "noise")
    = Ok (kitchen [teaRunning])
  /\ @applyCommand ecma t0 "u" (kitchen [teaRunning]) (commandBody "t9" "start")
       = Ok (kitchen [teaRunning])
  /\ @applyCommand ecma t0 "u" (kitchen [teaRunning]) (commandBody "t1" "snooze")
       = Ok (kitchen [tea running iso0 (Some iso0) 0%float])
  /\ exists b' t',
       @applyCommand ecma (t0 + 6000) "u" (kitchen [teaRunning; instant])
         (commandBody "t1" "snooze") = Ok b'
       /\ boardId b' = "kitchen"
       /\ List.length (timers b') = 2
       /\ (forall i x, nth_error [teaRunning; instant] i = Some x -> id x <> "t1" ->
             nth_error (timers b') i = Some x)
       /\ lookup b' "t1" = Some t'
       /\ id t' = "t1" /\ label t' = VStr "Tea" /\ durationMs t' = 5000%float
       /\ createdAt t' = iso0
       /\ updatedAt t' = @toISOString ecma (t0 + 6000)
       /\ state t' = finished /\ startedAt t' = None
       /\ elapsedMs t' = 5000%float.
Proof.
  split; [|split; [|split]].
  - apply (proj1 (proj2
      (@unrecognized_input ecma t0 "u" (kitchen [teaRunning]) (VStr "noise"))));
      reflexivity.
  - apply (proj1 (proj2 (proj2
      (@unrecognized_input ecma t0 "u" (kitchen [teaRunning])
         (commandBody "t9" "start"))))); reflexivity.
  - rewrite (proj1 (proj2 (proj2 (proj2
      (@unrecognized_input ecma t0 "u" (kitchen [teaRunning])
         (commandBody "t1" "snooze"))))))
      by reflexivity.
    vm_compute. reflexivity.
  - exact (proj2 (proj2 (proj2 (proj2
      (@unrecognized_input ecma (t0 + 6000)%Z "u" (kitchen [teaRunning; instant])
         (commandBody "t1" "snooze"))))) "t1" teaRunning
      eq_refl eq_refl eq_refl eq_refl eq_refl eq_refl).
Defined.

Lemma reset_rewinds_witness :
  exists b' t',
    @applyCommand ecma (t0 + 6000) "u" (kitchen [teaRunning]) (commandBody "t1" "reset")
      = Ok b'
    /\ lookup b' "t1" = Some t'
    /\ startedAt t' = None
    /\ state t' = idle /\ elapsedMs t' = 0%float.
Proof.
  exact (@reset_rewinds ecma (t0 + 6000)%Z "u" (kitchen [teaRunning]) "t1"
           teaRunning eq_refl).
Defined.

Lemma start_twice_witness :
  exists b1 t1 b2 t2,
    @applyCommand ecma t0 "u" (kitchen [teaIdle]) (commandBody "t1" "start") = Ok b1
    /\ lookup b1 "t1" = Some t1
    /\ @applyCommand ecma (t0 + 2000) "u" b1 (commandBody "t1" "start") = Ok b2
    /\ lookup b2 "t1" = Some t2
    /\ (state t1 = running /\ startedAt t1 = Some iso0)
    /\ (state t1 = running ->
        if @due ecma (Z2F (t0 + 2000)) t1
        then state t2 = finished /\ startedAt t2 = None
        else state t2 = running /\ startedAt t2 = startedAt t1).
Proof.
  exact (@start_twice ecma t0 (t0 + 2000)%Z "u" "u" (kitchen [teaIdle]) "t1"
           teaIdle eq_refl (or_introl eq_refl)).
Defined.

Lemma finished_entry_and_exit_witness :
  exists t',
    In t' (timers (kitchen [teaFinished]))
    /\ id t' = "t1" /\ createdAt t' = iso0 /\ state t' = finished.
Proof.
  apply (proj2 (@finished_entry_and_exit ecma (t0 + 6000)%Z "u"
                  (kitchen [teaFinished]) (kitchen [teaFinished])
                  (commandBody "t1" "start") scenario_start_finished) teaFinished);
    [left; reflexivity|reflexivity..].
Defined.

Lemma create_duration_witness :
  exists n t,
    @ToNumber ecma (VNum 5000%float) = Ok n
    /\ timers (kitchen [teaIdle]) = [] ++ [t]
    /\ durationMs t =
         (if PrimFloat.is_nan n || PrimFloat.is_zero n then 0%float else n)
    /\ PrimFloat.is_nan (durationMs t) = false.
Proof.
  exact (@create_duration ecma t0 "t1" (emptyBoard "kitchen") (kitchen [teaIdle])
           (VObj [ ("action", VStr "create");
                   ("payload", VObj [ ("label", VStr "Tea");
                                      ("durationMs", VNum 5000%float) ]) ])
           eq_refl scenario_create).
Defined.

Lemma frame_witness :
  boardId (kitchen [teaFinished; instant]) = "kitchen"
  /\ List.length (timers (kitchen [teaFinished; instant])) = 2
  /\ nth_error (timers (kitchen [teaFinished; instant])) 1 = Some instant.
Proof.
  destruct (@frame ecma (t0 + 6000)%Z "u" (kitchen [teaRunning; instant])
              (kitchen [teaFinished; instant]) (commandBody "t1" "pause")
              scenario_pause_beside) as (Hb & Hc & _).
  destruct (Hc eq_refl) as [Hlen Hnth].
  split; [exact Hb|]. split; [exact Hlen|].
  apply Hnth; reflexivity.
Defined.

Lemma loadBoard_defaults_witness :
  loadBoard Ecma.JSON_parse brokenStore "kitchen"
  = Ok (VObj [ ("boardId", VStr "kitchen"); ("timers", VArr []) ])
  /\ loadBoard Ecma.JSON_parse (fun _ => None) "kitchen"
     = Ok (VObj [ ("boardId", VStr "kitchen"); ("timers", VArr []) ]).
Proof.
  split.
  - apply loadBoard_defaults. right. exists "{oops"%string, SyntaxError.
    split; reflexivity.
  - apply loadBoard_defaults. left. reflexivity.
Defined.

(** ** Where the specification and the code part ways *)

(** C4, as stated, fails: an unknown sub-command on a timer that has run
    past its duration finishes it and stamps it. *)
Lemma unknown_subcommand_changes_board :
  @applyCommand ecma (t0 + 6000) "u" (kitchen [teaRunning]) (commandBody "t1" "snooze")
    = Ok (kitchen [teaFinished])
  /\ kitchen [teaFinished] <> kitchen [teaRunning].
Proof.
  split; [exact scenario_snooze|discriminate].
Qed.

(** C5, as stated, fails: resetting a timer of duration zero leaves it
    finished, not idle. *)
Lemma reset_of_instant_timer_finishes :
  exists b' t',
    @applyCommand ecma (t0 + 6000) "u" (kitchen [instant]) (commandBody "t2" "reset")
      = Ok b'
    /\ lookup b' "t2" = Some t'
    /\ state t' = finished
    /\ state t' <> idle.
Proof.
  eexists. eexists.
  split; [vm_compute; reflexivity|].
  split; [reflexivity|]. split; [reflexivity|discriminate].
Qed.

(** C6, as stated, fails: the second of two [start] commands, six seconds
    after the first on a five-second timer, finds it running and leaves it
    finished with [startedAt = null]. *)
Lemma second_start_finishes :
  exists b1 t1 b2 t2,
    @applyCommand ecma t0 "u" (kitchen [teaIdle]) (commandBody "t1" "start") = Ok b1
    /\ lookup b1 "t1" = Some t1
    /\ state t1 = running
    /\ startedAt t1 = Some iso0
    /\ @applyCommand ecma (t0 + 6000) "u" b1 (commandBody "t1" "start") = Ok b2
    /\ lookup b2 "t1" = Some t2
    /\ state t2 = finished
    /\ startedAt t2 = None.
Proof.
  exists (kitchen [teaRunning]), teaRunning, (kitchen [teaFinished]), teaFinished.
  split; [exact scenario_start|].
  split; [reflexivity|]. split; [reflexivity|]. split; [reflexivity|].
  split; [vm_compute; reflexivity|].
  repeat split.
Qed.

(** C8, as stated, fails: a negative duration is stored as it is. *)
Lemma negative_duration_is_stored :
  exists b' t,
    @applyCommand ecma t0 "t1" (emptyBoard "kitchen") (createBody (VNum (-5)%float))
      = Ok b'
    /\ timers b' = [t]
    /\ durationMs t = (-5)%float
    /\ (durationMs t <? 0)%float = true.
Proof.
  eexists. eexists.
  split; [vm_compute; reflexivity|].
  repeat split.
Qed.

(** * Further properties of the engine *)

Lemma filter_all (keep : Timer -> bool) (l : list Timer) :
  (forall t, In t l -> keep t = true) -> filter keep l = l.
Proof.
  induction l as [|x l IH]; simpl; [reflexivity|].
  intros H. rewrite (H x) by now left. f_equal. apply IH. auto.
Qed.

Lemma find_none_iff (q : Timer -> bool) (l : list Timer) :
  find q l = None <-> forall t, In t l -> q t = false.
Proof.
  split.
  - intros H t Hin. now apply (find_none q l).
  - induction l as [|x l IH]; simpl; [reflexivity|].
    intros H. rewrite (H x) by now left. apply IH. auto.
Qed.


Lemma filter_app_last (keep : Timer -> bool) (l : list Timer) (x : Timer) :
  (forall t, In t l -> keep t = true) -> keep x = false ->
  filter keep (l ++ [x]) = l.
Proof.
  intros Hl Hx. rewrite filter_app. simpl. rewrite Hx, app_nil_r.
  now apply filter_all.
Qed.

Lemma mutateFirst_twice (p : Timer -> bool) (f g : Timer -> Timer) (l : list Timer) :
  (forall t, p (f t) = p t) ->
  mutateFirst p g (mutateFirst p f l) = mutateFirst p (fun t => g (f t)) l.
Proof.
  intros Hp. induction l as [|x l IH]; simpl; [reflexivity|].
  destruct (p x) eqn:Hx; simpl.
  - now rewrite Hp, Hx.
  - now rewrite Hx, IH.
Qed.

Lemma hasId_false_iff (tid : string) (t : Timer) :
  hasId (VStr tid) t = false <-> id t <> tid.
Proof.
  unfold hasId. simpl. rewrite String.eqb_neq. split; congruence.
Qed.

Section EngineExtras.
Context {rt : Runtime}.

(** X1. A [delete] whose payload id matches no timer returns the board as
    it was. *)
Theorem delete_missing_is_noop
    (now : Z) (uuid : string) (b : Board) (body : value) :
  strictEqStr (actionOf body) "delete" = true ->
  find (hasId (payloadOf body "id")) (timers b) = None ->
  applyCommand now uuid b body = Ok b.
Proof.
  intros Hd Hnone. rewrite applyCommand_delete by exact Hd.
  rewrite filter_all; [now destruct b|].
  intros t Hin. rewrite find_none_iff in Hnone. now rewrite (Hnone t Hin).
Qed.

(** X2. A [delete] removes every timer that carries the payload id, not
    only the first: afterwards no timer has that id, a lookup of it finds
    nothing, and the same [delete] again changes nothing. *)
Theorem delete_removes_every_match
    (now : Z) (uuid : string) (b b' : Board) (body : value) (tid : string) :
  deletes body tid = true ->
  applyCommand now uuid b body = Ok b' ->
  (forall t, In t (timers b') -> id t <> tid)
  /\ lookup b' tid = None
  /\ forall now' uuid', applyCommand now' uuid' b' body = Ok b'.
Proof.
  unfold deletes. intros Hdel Hstep.
  apply andb_prop in Hdel. destruct Hdel as [Hd Hid].
  apply strictEqStr_true in Hid.
  rewrite applyCommand_delete in Hstep by exact Hd. injection Hstep as <-.
  rewrite Hid. simpl.
  assert (Hgone : forall t,
            In t (filter (fun t => negb (hasId (VStr tid) t)) (timers b)) ->
            hasId (VStr tid) t = false).
  { intros t Hin. apply filter_In in Hin. destruct Hin as [_ Hin].
    now apply negb_true_iff in Hin. }
  split; [|split].
  - intros t Hin. apply hasId_false_iff. auto.
  - unfold lookup. simpl. now apply find_none_iff.
  - intros now' uuid'. rewrite applyCommand_delete by exact Hd.
    rewrite Hid. cbn [timers boardId]. rewrite filter_all; [reflexivity|].
    intros t Hin. now rewrite (Hgone t Hin).
Qed.


(** X4. Creating a timer under an id that no timer has, and then deleting
    that id, gives back the board as it was before the two actions. *)
Theorem create_then_delete
    (now now' : Z) (uuid uuid' : string) (b b1 : Board) (body body' : value) :
  lookup b uuid = None ->
  strictEqStr (actionOf body) "create" = true ->
  applyCommand now uuid b body = Ok b1 ->
  deletes body' uuid = true ->
  applyCommand now' uuid' b1 body' = Ok b.
Proof.
  intros Hfresh Hc Hstep Hdel.
  rewrite applyCommand_create in Hstep by exact Hc.
  destruct (ToNumber (payloadOf body "durationMs")) as [n|e]; simpl in Hstep;
    [|discriminate].
  injection Hstep as <-.
  unfold deletes in Hdel. apply andb_prop in Hdel. destruct Hdel as [Hd Hid].
  apply strictEqStr_true in Hid.
  rewrite applyCommand_delete by exact Hd. rewrite Hid. cbn [timers boardId].
  rewrite filter_app_last; [now destruct b| |].
  - intros t Hin. unfold lookup in Hfresh. rewrite find_none_iff in Hfresh.
    now rewrite (Hfresh t Hin).
  - unfold hasId. simpl. now rewrite String.eqb_refl.
Qed.

(** X5. A [pause] on a running timer that has not reached its duration
    leaves it [paused] with [startedAt = null] and
    [elapsedMs + (now - parse(startedAt))] accumulated. *)
Theorem pause_accumulates
    (now : Z) (uuid : string) (b : Board) (t : Timer) (s : string) :
  lookup b (id t) = Some t ->
  state t = running ->
  startedAt t = Some s ->
  truthyStr s = true ->
  (durationMs t <=? elapsedMs t + (Z2F now - Date_parse s))%float = false ->
  exists b' t',
    applyCommand now uuid b (commandBody (id t) "pause") = Ok b'
    /\ lookup b' (id t) = Some t'
    /\ state t' = paused
    /\ elapsedMs t' = (elapsedMs t + (Z2F now - Date_parse s))%float
    /\ startedAt t' = None.
Proof.
  intros Hl Hst Hsa Hs Hdue.
  rewrite applyCommand_command by reflexivity.
  change (payloadOf (commandBody (id t) "pause") "id") with (VStr (id t)).
  change (payloadOf (commandBody (id t) "pause") "command") with (VStr "pause").
  eexists. eexists. split; [reflexivity|]. split.
  - unfold lookup. simpl. apply find_mutateFirst; [exact Hl|].
    rewrite hasId_runCommand. now apply find_some in Hl.
  - clear Hl. destruct t. reduce_timer. subst.
    unfold runCommand, onStart. eval_tests. reduce_timer.
    unfold onPause, runningSince. eval_tests. reduce_timer. rewrite Hs.
    unfold onReset. eval_tests. reduce_timer.
    unfold autoFinish, due, effectiveElapsed, runningSince. reduce_timer.
    rewrite Hdue. reduce_timer. auto.
Qed.

Lemma map_id_mutateFirst (p : Timer -> bool) (f : Timer -> Timer) (l : list Timer) :
  (forall t, id (f t) = id t) -> map id (mutateFirst p f l) = map id l.
Proof.
  intros Hf. induction l as [|x l IH]; simpl; [reflexivity|].
  destruct (p x); simpl; congruence.
Qed.

(** X6. A [command] action never changes which ids are on the board or
    their order, and on the timer it targets it keeps [id], [label],
    [durationMs] and [createdAt] and stamps [updatedAt] with the current
    time, whatever the sub-command. *)
Theorem command_keeps_identity
    (now : Z) (uuid : string) (b b' : Board) (body : value) (tid : string)
    (t : Timer) :
  strictEqStr (actionOf body) "command" = true ->
  payloadOf body "id" = VStr tid ->
  lookup b tid = Some t ->
  applyCommand now uuid b body = Ok b' ->
  map id (timers b') = map id (timers b)
  /\ exists t',
       lookup b' tid = Some t'
       /\ id t' = id t /\ label t' = label t /\ durationMs t' = durationMs t
       /\ createdAt t' = createdAt t /\ updatedAt t' = toISOString now.
Proof.
  intros Hm Hid Hl Hstep.
  rewrite applyCommand_command in Hstep by exact Hm. injection Hstep as <-.
  rewrite Hid. cbn [timers]. split.
  - apply map_id_mutateFirst. intros x. apply runCommand_keeps.
  - eexists. split.
    + unfold lookup. cbn [timers]. apply find_mutateFirst; [exact Hl|].
      rewrite hasId_runCommand. now apply find_some in Hl.
    + apply runCommand_keeps.
Qed.

Lemma due_set_updatedAt (nowMs : float) (i : string) (t : Timer) :
  due nowMs (set_updatedAt i t) = due nowMs t.
Proof. now destruct t. Qed.

Lemma autoFinish_settles (nowMs : float) (t : Timer) :
  (state (autoFinish nowMs t) = finished
   /\ elapsedMs (autoFinish nowMs t) = durationMs (autoFinish nowMs t)
   /\ startedAt (autoFinish nowMs t) = None)
  \/ due nowMs (autoFinish nowMs t) = false.
Proof.
  unfold autoFinish. destruct (due nowMs t) eqn:H; [left|now right].
  destruct t. reduce_timer. auto.
Qed.

(** X7. After a [command] action the timer it targeted is settled: either
    it is [finished] with [elapsedMs = durationMs] and [startedAt = null],
    or its effective elapsed time at that moment is not [>=] its
    duration. *)
Theorem settled_after_command
    (now : Z) (uuid : string) (b b' : Board) (body : value) (tid : string)
    (t : Timer) :
  strictEqStr (actionOf body) "command" = true ->
  payloadOf body "id" = VStr tid ->
  lookup b tid = Some t ->
  applyCommand now uuid b body = Ok b' ->
  exists t',
    lookup b' tid = Some t'
    /\ ((state t' = finished /\ elapsedMs t' = durationMs t'
         /\ startedAt t' = None)
        \/ (durationMs t' <=? effectiveElapsed t' (Z2F now))%float = false).
Proof.
  intros Hm Hid Hl Hstep.
  rewrite applyCommand_command in Hstep by exact Hm. injection Hstep as <-.
  rewrite Hid. eexists. split.
  - unfold lookup. cbn [timers]. apply find_mutateFirst; [exact Hl|].
    rewrite hasId_runCommand. now apply find_some in Hl.
  - unfold runCommand.
    set (x := onReset _ (onPause _ _ (onStart _ _ t))).
    destruct (autoFinish_settles (Z2F now) x) as [(H1 & H2 & H3) | H].
    + left. destruct (autoFinish (Z2F now) x). reduce_timer. auto.
    + right. fold (due (Z2F now) (set_updatedAt (toISOString now)
                                     (autoFinish (Z2F now) x))).
      now rewrite due_set_updatedAt.
Qed.

Lemma runCommand_reset_absorbs
    (n1 n2 : float) (i1 i2 : string) (c : value) (t : Timer) :
  runCommand n2 i2 (VStr "reset") (runCommand n1 i1 c t)
  = runCommand n2 i2 (VStr "reset") t.
Proof.
  destruct (runCommand_keeps n1 i1 c t) as (H1 & H2 & H3 & H4 & _).
  destruct (runCommand n1 i1 c t) as [a l d s cr u sa e].
  destruct t. reduce_timer. subst.
  unfold runCommand, onStart. eval_tests. reduce_timer.
  unfold onPause. eval_tests. reduce_timer.
  unfold onReset. eval_tests. reduce_timer.
  unfold autoFinish, due, effectiveElapsed, runningSince. reduce_timer.
  now destruct (_ <=? _)%float.
Qed.

(** X8. A [reset] forgets what came before it: resetting a timer right
    after any [command] action on it gives the same board as resetting it
    without that action. *)
Theorem reset_forgets
    (now1 now2 : Z) (u1 u2 : string) (b b1 : Board) (body : value) (tid : string) :
  strictEqStr (actionOf body) "command" = true ->
  payloadOf body "id" = VStr tid ->
  applyCommand now1 u1 b body = Ok b1 ->
  applyCommand now2 u2 b1 (commandBody tid "reset")
  = applyCommand now2 u2 b (commandBody tid "reset").
Proof.
  intros Hm Hid Hstep.
  rewrite applyCommand_command in Hstep by exact Hm. injection Hstep as <-.
  rewrite Hid. rewrite !applyCommand_command by reflexivity.
  change (payloadOf (commandBody tid "reset") "id") with (VStr tid).
  change (payloadOf (commandBody tid "reset") "command") with (VStr "reset").
  cbn [timers boardId]. f_equal. f_equal.
  rewrite mutateFirst_twice by (intros x; apply hasId_runCommand).
  apply mutateFirst_ext. intros x. apply runCommand_reset_absorbs.
Qed.

Lemma runCommand_at_rest
    (n1 n2 : float) (i1 i2 : string) (c : value) (t : Timer) :
  state t <> running ->
  strictEqStr c "start" = false ->
  runCommand n1 i1 c t = set_updatedAt i1 (runCommand n2 i2 c t).
Proof.
  destruct t. reduce_timer. intros Hs Hc.
  unfold runCommand, onStart. rewrite Hc.
  unfold onPause, runningSince. reduce_timer.
  destruct state0; try contradiction; clear Hs;
    destruct (strictEqStr c "pause"); reduce_timer;
    unfold onReset; destruct (strictEqStr c "reset"); reduce_timer;
    unfold autoFinish, due, effectiveElapsed, runningSince; reduce_timer;
    destruct (_ <=? _)%float; reflexivity.
Qed.

(** X9. Time does not run for a timer at rest: on a timer that is idle,
    paused or finished, a sub-command other than [start] leaves the same
    state, [elapsedMs] and [startedAt] whenever it is issued. *)
Theorem rest_ignores_clock
    (now1 now2 : Z) (u1 u2 : string) (b : Board) (body : value) (tid : string)
    (t : Timer) :
  strictEqStr (actionOf body) "command" = true ->
  payloadOf body "id" = VStr tid ->
  strictEqStr (payloadOf body "command") "start" = false ->
  lookup b tid = Some t ->
  state t <> running ->
  exists b1 b2 t1 t2,
    applyCommand now1 u1 b body = Ok b1
    /\ applyCommand now2 u2 b body = Ok b2
    /\ lookup b1 tid = Some t1
    /\ lookup b2 tid = Some t2
    /\ state t1 = state t2
    /\ elapsedMs t1 = elapsedMs t2
    /\ startedAt t1 = startedAt t2.
Proof.
  intros Hm Hid Hc Hl Hs.
  rewrite !applyCommand_command by exact Hm. rewrite Hid.
  pose proof (find_some _ _ Hl) as [_ Hid'].
  do 2 eexists.
  exists (runCommand (Z2F now1) (toISOString now1) (payloadOf body "command") t),
         (runCommand (Z2F now2) (toISOString now2) (payloadOf body "command") t).
  split; [reflexivity|]. split; [reflexivity|].
  split; [unfold lookup; cbn [timers]; apply find_mutateFirst;
          [exact Hl|now rewrite hasId_runCommand]|].
  split; [unfold lookup; cbn [timers]; apply find_mutateFirst;
          [exact Hl|now rewrite hasId_runCommand]|].
  rewrite (runCommand_at_rest (Z2F now1) (Z2F now2) (toISOString now1)
             (toISOString now2) _ t Hs Hc).
  now destruct (runCommand (Z2F now2) (toISOString now2) _ t).
Qed.

Lemma runCommand_idle_is_rewound
    (nowMs : float) (nowIso : string) (c : value) (t : Timer) :
  (state t = idle -> elapsedMs t = 0%float) ->
  state (runCommand nowMs nowIso c t) = idle ->
  elapsedMs (runCommand nowMs nowIso c t) = 0%float.
Proof.
  destruct t. reduce_timer. intros H.
  open_command; intros; try discriminate; auto.
Qed.

(** X10. On every board reachable from the empty board, each timer has
    [startedAt] non-null exactly when it is running, a truthy label, and,
    while it is idle, [elapsedMs = 0]. *)
Theorem reachable_well_formed (b : Board) :
  reachable b ->
  forall t, In t (timers b) ->
    consistent t
    /\ ToBoolean (label t) = true
    /\ (state t = idle -> elapsedMs t = 0%float).
Proof.
  induction 1 as [bid | b b' now uuid body _ IH Hstep]; [intros t []|].
  intros t' Hin.
  destruct (step_origin _ _ _ _ _ Hstep t' Hin)
    as [H | [(_ & n & ->) | (_ & t & Ht & ->)]].
  - now apply IH.
  - cbn [newTimer label state elapsedMs]. split; [|split].
    + unfold consistent. cbn [newTimer startedAt state].
      split; [congruence|discriminate].
    + now destruct (ToBoolean (payloadOf body "label")) eqn:Hl.
    + reflexivity.
  - destruct (IH t Ht) as (Hc & Hl & Hi). split; [|split].
    + now apply runCommand_consistent.
    + destruct (runCommand_keeps (Z2F now) (toISOString now)
                  (payloadOf body "command") t) as (_ & -> & _). exact Hl.
    + now apply runCommand_idle_is_rewound.
Qed.
End EngineExtras.

(** * The worker *)

(** ** Paths *)

Lemma stripPrefix_app (p r : string) : stripPrefix p (p ++ r)%string = Some r.
Proof.
  induction p as [|c p IH]; simpl; [reflexivity|].
  now rewrite Ascii.eqb_refl.
Qed.

Lemma stripPrefix_some (p s r : string) :
  stripPrefix p s = Some r -> s = (p ++ r)%string.
Proof.
  revert s. induction p as [|c p IH]; simpl; intros s H.
  - congruence.
  - destruct s as [|d s]; [discriminate|].
    destruct (Ascii.eqb c d) eqn:Hcd; [|discriminate].
    apply Ascii.eqb_eq in Hcd. subst d. f_equal. now apply IH.
Qed.

Lemma segment_app (a tail : string) :
  ~ In "/"%char (list_ascii_of_string a) ->
  segment (a ++ String "/" tail)%string = (a, String "/" tail).
Proof.
  induction a as [|c a IH]; simpl; intros Hno.
  - reflexivity.
  - destruct (Ascii.eqb c "/") eqn:Hc.
    + apply Ascii.eqb_eq in Hc. subst c. exfalso. apply Hno. now left.
    + rewrite IH; [reflexivity|]. intros Hin. apply Hno. now right.
Qed.

Lemma segment_some (s a tail : string) :
  segment s = (a, tail) ->
  s = (a ++ tail)%string /\ ~ In "/"%char (list_ascii_of_string a).
Proof.
  revert a tail. induction s as [|c s IH]; simpl; intros a tail H.
  - injection H as <- <-. split; [reflexivity|intros []].
  - destruct (Ascii.eqb c "/") eqn:Hc.
    + injection H as <- <-. split; [reflexivity|intros []].
    + destruct (segment s) as [a' b'] eqn:Hs. injection H as <- <-.
      destruct (IH a' b' eq_refl) as [-> Hno]. split; [reflexivity|].
      simpl. intros [Heq | Hin]; [|now apply Hno].
      subst c. now rewrite Ascii.eqb_refl in Hc.
Qed.

(** X11. The pathname matches exactly when it is ["/api/boards/"], a
    board id and ["/timers"], where the id is not empty and holds no
    ["/"]; the id captured is that one. *)
Theorem matchPath_spec (pathname boardId : string) :
  matchPath pathname = Some boardId
  <-> (pathname = ("/api/boards/" ++ boardId ++ "/timers")%string
       /\ boardId <> EmptyString
       /\ ~ In "/"%char (list_ascii_of_string boardId)).
Proof.
  unfold matchPath. split.
  - destruct (stripPrefix "/api/boards/" pathname) as [rest|] eqn:Hp; [|discriminate].
    apply stripPrefix_some in Hp.
    destruct (segment rest) as [a tail] eqn:Hs.
    apply segment_some in Hs. destruct Hs as [-> Hno].
    destruct (truthyStr a) eqn:Ha; [|discriminate]. simpl.
    destruct (String.eqb tail "/timers") eqn:Ht; [|discriminate].
    apply String.eqb_eq in Ht.
    intros [= <-]. subst tail pathname.
    split; [reflexivity|]. split; [now destruct a|exact Hno].
  - intros (-> & Hne & Hno).
    rewrite stripPrefix_app.
    change (boardId ++ "/timers")%string with (boardId ++ String "/" "timers")%string.
    rewrite segment_app by exact Hno.
    destruct boardId; [contradiction|reflexivity].
Qed.

(** ** Headers *)

Lemma Headers_get_set_same (name value : string) (hs : Headers) :
  Headers_get name (Headers_set name value hs) = Some value.
Proof.
  induction hs as [|[n v] hs IH]; simpl.
  - now rewrite String.eqb_refl.
  - destruct (String.eqb n (lower name)) eqn:Hn; simpl; now rewrite Hn.
Qed.

Lemma Headers_get_set_other (name other value : string) (hs : Headers) :
  lower name <> lower other ->
  Headers_get name (Headers_set other value hs) = Headers_get name hs.
Proof.
  intros Hne.
  induction hs as [|[n v] hs IH]; simpl.
  - destruct (String.eqb (lower other) (lower name)) eqn:H; [|reflexivity].
    apply String.eqb_eq in H. congruence.
  - destruct (String.eqb n (lower other)) eqn:Hn; simpl.
    + destruct (String.eqb n (lower name)) eqn:Hn'; [|reflexivity].
      apply String.eqb_eq in Hn, Hn'. congruence.
    + now rewrite IH.
Qed.

(** X12. [withCors] keeps the status and the body, sets the four CORS
    headers, echoing the request's [Origin] or ["*"] when it is absent or
    empty, and keeps every other header, such as [Content-Type]. *)
Theorem withCors_headers (response : Response) (request : Request) :
  status (withCors response request) = status response
  /\ content (withCors response request) = content response
  /\ Headers_get "Access-Control-Allow-Origin" (headers (withCors response request))
     = Some (match origin request with
             | Some o => if truthyStr o then o else "*"
             | None => "*"
             end)
  /\ Headers_get "Access-Control-Allow-Methods" (headers (withCors response request))
     = Some "GET,POST,OPTIONS"
  /\ Headers_get "Access-Control-Allow-Headers" (headers (withCors response request))
     = Some "Content-Type"
  /\ Headers_get "Access-Control-Max-Age" (headers (withCors response request))
     = Some "86400"
  /\ Headers_get "Content-Type" (headers (withCors response request))
     = Headers_get "Content-Type" (headers response).
Proof.
  unfold withCors. cbn [status content headers].
  repeat split.
  - rewrite !Headers_get_set_other by (vm_compute; discriminate).
    apply Headers_get_set_same.
  - rewrite !Headers_get_set_other by (vm_compute; discriminate).
    apply Headers_get_set_same.
  - rewrite !Headers_get_set_other by (vm_compute; discriminate).
    apply Headers_get_set_same.
  - apply Headers_get_set_same.
  - now rewrite !Headers_get_set_other by (vm_compute; discriminate).
Qed.

(** ** The engine on stored boards *)

Lemma timerValue_props (t : Timer) : timerValue t = VObj (timerProps t).
Proof. reflexivity. Qed.

Lemma strictEq_VStr (s : string) (v : value) :
  strictEq (VStr s) v = strictEqStr v s.
Proof. destruct v; simpl; try reflexivity. apply String.eqb_sym. Qed.

Section OnBoards.
Context {rt : Runtime}.

Lemma write_updatedAt (i : string) (t : Timer) :
  Any.write "updatedAt" (VStr i) (true, timerProps t)
  = Ok (true, timerProps (set_updatedAt i t)).
Proof. now destruct t. Qed.

Lemma onStart_on_timers (nowIso : string) (c : value) (t : Timer) :
  Any.onStart nowIso c (true, timerProps t)
  = Ok (true, timerProps (onStart nowIso c t)).
Proof.
  unfold Any.onStart, onStart.
  destruct (strictEqStr c "start"); [|reflexivity].
  now destruct t as [i l d [] cr u sa e].
Qed.

Lemma isRunning_on_timers (t : Timer) :
  Any.isRunning (true, timerProps t)
  = match runningSince t with Some _ => true | None => false end.
Proof.
  destruct t as [i l d [] cr u [[|a s]|] e]; reflexivity.
Qed.

Lemma startedAt_on_timers (t : Timer) (s : string) :
  runningSince t = Some s ->
  Any.read (true, timerProps t) "startedAt" = VStr s.
Proof.
  destruct t as [i l d [] cr u [[|a x]|] e]; cbn; congruence.
Qed.

Lemma elapsedMs_on_timers (t : Timer) :
  Any.read (true, timerProps t) "elapsedMs" = VNum (elapsedMs t)
  /\ Any.read (true, timerProps t) "durationMs" = VNum (durationMs t).
Proof. now destruct t. Qed.

Lemma effectiveElapsed_on_timers (t : Timer) (nowMs : float) :
  Any.effectiveElapsed (true, timerProps t) nowMs
  = Ok (VNum (effectiveElapsed t nowMs)).
Proof.
  unfold Any.effectiveElapsed, effectiveElapsed.
  rewrite isRunning_on_timers.
  destruct (runningSince t) as [s|] eqn:Hs.
  - rewrite (startedAt_on_timers t s Hs).
    now rewrite (proj1 (elapsedMs_on_timers t)).
  - now rewrite (proj1 (elapsedMs_on_timers t)).
Qed.

Lemma onPause_on_timers (nowMs : float) (c : value) (t : Timer) :
  Any.onPause nowMs c (true, timerProps t)
  = Ok (true, timerProps (onPause nowMs c t)).
Proof.
  unfold Any.onPause, onPause.
  destruct (strictEqStr c "pause"); [|reflexivity].
  rewrite isRunning_on_timers.
  destruct (runningSince t) as [s|] eqn:Hs; [|reflexivity].
  rewrite (startedAt_on_timers t s Hs), (proj1 (elapsedMs_on_timers t)).
  now destruct t.
Qed.

Lemma onReset_on_timers (c : value) (t : Timer) :
  Any.onReset c (true, timerProps t) = Ok (true, timerProps (onReset c t)).
Proof.
  unfold Any.onReset, onReset.
  destruct (strictEqStr c "reset"); [|reflexivity].
  now destruct t.
Qed.

Lemma autoFinish_on_timers (nowMs : float) (t : Timer) :
  Any.autoFinish nowMs (true, timerProps t)
  = Ok (true, timerProps (autoFinish nowMs t)).
Proof.
  unfold Any.autoFinish, autoFinish, due.
  rewrite effectiveElapsed_on_timers, (proj2 (elapsedMs_on_timers t)).
  cbn [bind Any.ge Any.ToPrimitive ToNumber].
  destruct (durationMs t <=? effectiveElapsed t nowMs)%float; [|reflexivity].
  now destruct t.
Qed.

Lemma runCommand_on_timers (nowMs : float) (nowIso : string) (c : value) (t : Timer) :
  Any.runCommand nowMs nowIso c (true, timerProps t)
  = Ok (true, timerProps (runCommand nowMs nowIso c t)).
Proof.
  unfold Any.runCommand, runCommand.
  rewrite onStart_on_timers. cbn [bind].
  rewrite onPause_on_timers. cbn [bind].
  rewrite onReset_on_timers. cbn [bind].
  rewrite autoFinish_on_timers. cbn [bind].
  apply write_updatedAt.
Qed.

Lemma commandOn_on_timers (nowMs : float) (nowIso : string) (c : value) (t : Timer) :
  Any.commandOn nowMs nowIso c (timerValue t)
  = Ok (timerValue (runCommand nowMs nowIso c t)).
Proof.
  unfold Any.commandOn. rewrite !timerValue_props. cbn [ToBoolean].
  now rewrite runCommand_on_timers.
Qed.

Lemma commandFirst_on_timers
    (idv : value) (nowMs : float) (nowIso : string) (c : value) (ts : list Timer) :
  Any.commandFirst idv (Any.commandOn nowMs nowIso c) (map timerValue ts)
  = Ok (map timerValue (mutateFirst (hasId idv) (runCommand nowMs nowIso c) ts)).
Proof.
  induction ts as [|t ts IH]; [reflexivity|].
  cbn [map Any.commandFirst mutateFirst].
  change (get (timerValue t) "id") with (Ok (VStr (id t))). cbn [bind].
  rewrite strictEq_VStr. fold (hasId idv t).
  destruct (hasId idv t).
  - now rewrite commandOn_on_timers.
  - now rewrite IH.
Qed.

Lemma removeAll_on_timers (idv : value) (ts : list Timer) :
  Any.removeAll idv (map timerValue ts)
  = Ok (map timerValue (filter (fun t => negb (hasId idv t)) ts)).
Proof.
  induction ts as [|t ts IH]; [reflexivity|].
  cbn [map Any.removeAll filter].
  change (get (timerValue t) "id") with (Ok (VStr (id t))). cbn [bind].
  rewrite IH. cbn [bind]. rewrite strictEq_VStr. fold (hasId idv t).
  now destruct (hasId idv t).
Qed.

Lemma timersOf_on_boards (b : Board) :
  Any.timersOf (boardValue b)
  = Ok ([ ("boardId", VStr (boardId b));
          ("timers", VArr (map timerValue (timers b))) ],
        map timerValue (timers b)).
Proof. reflexivity. Qed.

(** On the value of a board the engine on stored values does what
    [applyCommand] does. *)
Lemma applyCommand_on_boards (now : Z) (uuid : string) (b : Board) (body : value) :
  Any.applyCommand now uuid (boardValue b) body
  = match applyCommand now uuid b body with
    | Ok b' => Ok (boardValue b')
    | Throw e => Throw e
    end.
Proof.
  destruct (strictEqStr (actionOf body) "create") eqn:Hc.
  { rewrite applyCommand_create by exact Hc.
    revert Hc. unfold Any.applyCommand, actionOf, payloadOf.
    destruct body as [| | | | | |props]; simpl; try discriminate.
    destruct (own "action" props) as [a|]; simpl; [|discriminate].
    intros ->.
    assert (Hpush : forall l d,
      (n <- ToNumber d ;;
       bt <- Any.timersOf (boardValue b) ;;
       Ok (VObj (assign "timers"
                   (VArr (snd bt ++ [timerValue (newTimer (toISOString now) uuid l n)]))
                   (fst bt))))
      = match (n <- ToNumber d ;;
               Ok {| boardId := boardId b;
                     timers := timers b ++ [newTimer (toISOString now) uuid l n] |}) with
        | Ok b' => Ok (boardValue b')
        | Throw e => Throw e
        end).
    { intros l d. destruct (ToNumber d) as [n|e]; [|reflexivity].
      cbn [bind]. rewrite timersOf_on_boards. cbn [bind fst snd].
      unfold boardValue. cbn [boardId timers]. now rewrite map_app. }
    destruct (own "payload" props) as [pl|]; simpl;
      [|exact (Hpush VUndefined VUndefined)].
    destruct pl as [| | | | | |pp]; simpl; try exact (Hpush VUndefined VUndefined).
    destruct (own "label" pp) as [l|], (own "durationMs" pp) as [d|];
      first [ exact (Hpush l d) | exact (Hpush l VUndefined)
            | exact (Hpush VUndefined d) | exact (Hpush VUndefined VUndefined) ]. }
  destruct (strictEqStr (actionOf body) "command") eqn:Hm.
  { rewrite applyCommand_command by exact Hm.
    revert Hc Hm. unfold Any.applyCommand, actionOf, payloadOf.
    destruct body as [| | | | | |props]; simpl; try discriminate.
    destruct (own "action" props) as [a|]; simpl; [|discriminate].
    intros -> ->.
    assert (Hrun : forall idv c,
      (bt <- Any.timersOf (boardValue b) ;;
       elems <- Any.commandFirst idv
                  (Any.commandOn (Z2F now) (toISOString now) c) (snd bt) ;;
       Ok (VObj (assign "timers" (VArr elems) (fst bt))))
      = Ok (boardValue
              {| boardId := boardId b;
                 timers := mutateFirst (hasId idv)
                             (runCommand (Z2F now) (toISOString now) c) (timers b) |})).
    { intros idv c. rewrite timersOf_on_boards. cbn [bind fst snd].
      now rewrite commandFirst_on_timers. }
    destruct (own "payload" props) as [pl|]; simpl;
      [|exact (Hrun VUndefined VUndefined)].
    destruct pl as [| | | | | |pp]; simpl; try exact (Hrun VUndefined VUndefined).
    destruct (own "id" pp) as [i|], (own "command" pp) as [c|];
      first [ exact (Hrun i c) | exact (Hrun i VUndefined)
            | exact (Hrun VUndefined c) | exact (Hrun VUndefined VUndefined) ]. }
  destruct (strictEqStr (actionOf body) "delete") eqn:Hd.
  { rewrite applyCommand_delete by exact Hd.
    revert Hc Hm Hd. unfold Any.applyCommand, actionOf, payloadOf.
    destruct body as [| | | | | |props]; simpl; try discriminate.
    destruct (own "action" props) as [a|]; simpl; [|discriminate].
    intros -> -> ->.
    assert (Hdel : forall idv,
      (bt <- Any.timersOf (boardValue b) ;;
       elems <- Any.removeAll idv (snd bt) ;;
       Ok (VObj (assign "timers" (VArr elems) (fst bt))))
      = Ok (boardValue
              {| boardId := boardId b;
                 timers := filter (fun t => negb (hasId idv t)) (timers b) |})).
    { intros idv. rewrite timersOf_on_boards. cbn [bind fst snd].
      now rewrite removeAll_on_timers. }
    destruct (own "payload" props) as [pl|]; simpl; [|exact (Hdel VUndefined)].
    destruct pl as [| | | | | |pp]; simpl; try exact (Hdel VUndefined).
    destruct (own "id" pp) as [i|]; [exact (Hdel i)|exact (Hdel VUndefined)]. }
  rewrite applyCommand_other by assumption.
  revert Hc Hm Hd. unfold Any.applyCommand, actionOf.
  destruct body as [| | | | | |props]; simpl; try reflexivity.
  destruct (own "action" props) as [a|]; simpl; [|reflexivity].
  now intros -> -> ->.
Qed.
End OnBoards.

(** ** Keys *)

Lemma boardKey_injective (a b : string) : boardKey a = boardKey b -> a = b.
Proof. unfold boardKey. simpl. congruence. Qed.

(** ** Saving, loading and serving *)

Section WorkerFacts.
Context {rt : Runtime}.
Variable JSON_parse : string -> result value.
Variable JSON_stringify : value -> string.

(** What [loadBoard] reads under a key that [saveBoard] just wrote. *)
Lemma load_reads_saved (TIMERS : KV) (boardId : string) (board : value) :
  loadBoard JSON_parse (saveBoard JSON_stringify TIMERS boardId board) boardId
  = if negb (truthyStr (JSON_stringify board))
    then Ok (boardValue (emptyBoard boardId))
    else match JSON_parse (JSON_stringify board) with
         | Ok v => Ok v
         | Throw _ => Ok (boardValue (emptyBoard boardId))
         end.
Proof.
  unfold loadBoard, saveBoard. now rewrite String.eqb_refl.
Qed.

(** X13. A board that was saved is the board that is loaded, provided the
    text it was written as is not empty and parses back to it. *)
Theorem save_then_load (TIMERS : KV) (boardId : string) (board : value) :
  truthyStr (JSON_stringify board) = true ->
  JSON_parse (JSON_stringify board) = Ok board ->
  loadBoard JSON_parse (saveBoard JSON_stringify TIMERS boardId board) boardId
  = Ok board.
Proof.
  intros Ht Hp. now rewrite load_reads_saved, Ht, Hp.
Qed.

(** X14. Saving one board leaves every other board as it loads: board keys
    of different ids never collide. *)
Theorem save_is_isolated
    (TIMERS : KV) (boardId other : string) (board : value) :
  other <> boardId ->
  loadBoard JSON_parse (saveBoard JSON_stringify TIMERS boardId board) other
  = loadBoard JSON_parse TIMERS other.
Proof.
  intros Hne. unfold loadBoard, saveBoard.
  destruct (String.eqb (boardKey other) (boardKey boardId)) eqn:Hk; [|reflexivity].
  apply String.eqb_eq, boardKey_injective in Hk. contradiction.
Qed.

Lemma loadBoard_returns (TIMERS : KV) (boardId : string) :
  exists v, loadBoard JSON_parse TIMERS boardId = Ok v.
Proof.
  unfold loadBoard. destruct (TIMERS (boardKey boardId)) as [raw|]; [|eauto].
  destruct (negb (truthyStr raw)); [eauto|].
  destruct (JSON_parse raw); eauto.
Qed.

Lemma method_is (request : Request) (m : string) :
  String.eqb (method request) m = true -> method request = m.
Proof. apply String.eqb_eq. Qed.

(** Every answer of [fetch] went through [withCors]. *)
Lemma fetch_responds_withCors
    (now : Z) (uuid : string) (request : Request) (TIMERS kv' : KV) (r : Response) :
  fetch JSON_parse JSON_stringify now uuid request TIMERS = (kv', Responds r) ->
  exists r0, r = withCors r0 request.
Proof.
  unfold fetch, json.
  destruct (matchPath (pathname request)) as [bid|]; [|intros [= _ <-]; eauto].
  destruct (String.eqb (method request) "OPTIONS"); [intros [= _ <-]; eauto|].
  destruct (String.eqb (method request) "GET").
  { destruct (loadBoard JSON_parse TIMERS bid); intros [= _ <-]. eauto. }
  destruct (String.eqb (method request) "POST"); [|intros [= _ <-]; eauto].
  destruct (JSON_parse (text request)) as [body|]; [|discriminate].
  destruct (loadBoard JSON_parse TIMERS bid) as [loaded|]; [|discriminate].
  destruct (Any.applyCommand now uuid loaded body); [|discriminate].
  intros [= _ <-]. eauto.
Qed.

(** X15. The routing table.  Every answer has status 404 when the pathname
    does not match, whatever the method, and otherwise 204 for [OPTIONS],
    200 for [GET] and [POST], and 405 for any other method; a 200 carries
    [Content-Type: application/json], a 404 or 405 a plain text, a 204
    none.  A request that is not a [POST], or whose pathname does not
    match, is always answered and leaves the store as it was. *)
Theorem fetch_routes
    (now : Z) (uuid : string) (request : Request) (TIMERS : KV) :
  (forall kv' r,
     fetch JSON_parse JSON_stringify now uuid request TIMERS = (kv', Responds r) ->
     status r =
       match matchPath (pathname request) with
       | None => 404
       | Some _ =>
           if String.eqb (method request) "OPTIONS" then 204
           else if String.eqb (method request) "GET" then 200
           else if String.eqb (method request) "POST" then 200
           else 405
       end
     /\ Headers_get "Content-Type" (headers r) =
          match status r with
          | 200 => Some "application/json"
          | 204 => None
          | _ => Some "text/plain;charset=UTF-8"
          end)
  /\ (method request <> "POST" \/ matchPath (pathname request) = None ->
      exists r,
        fetch JSON_parse JSON_stringify now uuid request TIMERS
        = (TIMERS, Responds r)).
Proof.
  unfold fetch, json. split.
  - intros kv' r.
    destruct (matchPath (pathname request)) as [bid|];
      [|intros [= _ <-]; split; reflexivity].
    destruct (String.eqb (method request) "OPTIONS");
      [intros [= _ <-]; split; reflexivity|].
    destruct (String.eqb (method request) "GET").
    { destruct (loadBoard JSON_parse TIMERS bid); intros [= _ <-].
      split; reflexivity. }
    destruct (String.eqb (method request) "POST");
      [|intros [= _ <-]; split; reflexivity].
    destruct (JSON_parse (text request)) as [body|]; [|discriminate].
    destruct (loadBoard JSON_parse TIMERS bid) as [loaded|]; [|discriminate].
    destruct (Any.applyCommand now uuid loaded body); [|discriminate].
    intros [= _ <-]. split; reflexivity.
  - intros H.
    destruct (matchPath (pathname request)) as [bid|]; [|eauto].
    destruct H as [H|H]; [|discriminate].
    destruct (String.eqb (method request) "OPTIONS"); [eauto|].
    destruct (String.eqb (method request) "GET").
    { destruct (loadBoard_returns TIMERS bid) as [v ->]. eauto. }
    destruct (String.eqb (method request) "POST") eqn:Hp; [|eauto].
    apply method_is in Hp. contradiction.
Qed.

(** X16. A [POST] on a matching pathname whose body [JSON.parse] rejects is
    not answered: the error escapes [fetch], and the store is as it was. *)
Theorem post_invalid_body_raises
    (now : Z) (uuid : string) (request : Request) (TIMERS : KV)
    (boardId : string) (e : exn) :
  method request = "POST" ->
  matchPath (pathname request) = Some boardId ->
  JSON_parse (text request) = Throw e ->
  fetch JSON_parse JSON_stringify now uuid request TIMERS = (TIMERS, Raises e).
Proof.
  intros Hm Hp He. unfold fetch. rewrite Hp, Hm, He. reflexivity.
Qed.

(** X17. A [POST] that is answered has stored, under the board's own key,
    exactly the text it answers with, which is the JSON text of what
    [applyCommand] returned for the loaded value and the parsed body; every
    other key of the store is as it was. *)
Theorem post_persists_response
    (now : Z) (uuid : string) (request : Request) (TIMERS kv' : KV)
    (boardId : string) (r : Response) :
  method request = "POST" ->
  matchPath (pathname request) = Some boardId ->
  fetch JSON_parse JSON_stringify now uuid request TIMERS = (kv', Responds r) ->
  kv' ("board:" ++ boardId)%string = content r
  /\ (forall key, key <> ("board:" ++ boardId)%string -> kv' key = TIMERS key)
  /\ exists body loaded updated,
       JSON_parse (text request) = Ok body
       /\ loadBoard JSON_parse TIMERS boardId = Ok loaded
       /\ Any.applyCommand now uuid loaded body = Ok updated
       /\ content r = Some (JSON_stringify updated).
Proof.
  intros Hm Hp. unfold fetch. rewrite Hp, Hm.
  change (String.eqb "POST" "OPTIONS") with false.
  change (String.eqb "POST" "GET") with false.
  change (String.eqb "POST" "POST") with true. cbv iota.
  destruct (JSON_parse (text request)) as [body|]; [|discriminate].
  destruct (loadBoard JSON_parse TIMERS boardId) as [loaded|]; [|discriminate].
  destruct (Any.applyCommand now uuid loaded body) as [updated|] eqn:Ha;
    [|discriminate].
  intros [= <- <-]. unfold saveBoard, boardKey, json. cbn [content withCors newResponse].
  split; [now rewrite String.eqb_refl|]. split.
  - intros key Hk. destruct (String.eqb key ("board:" ++ boardId)) eqn:E; [|reflexivity].
    apply String.eqb_eq in E. contradiction.
  - exists body, loaded, updated. auto.
Qed.

(** X18. [fetch] writes nothing unless it answers a [POST]: whenever the
    store after the call differs at a key, the request was a [POST] on a
    matching pathname, it was answered, and the key is that board's own. *)
Theorem fetch_writes_only_on_post
    (now : Z) (uuid : string) (request : Request) (TIMERS : KV) (key : string) :
  fst (fetch JSON_parse JSON_stringify now uuid request TIMERS) key <> TIMERS key ->
  method request = "POST"
  /\ exists boardId r,
       matchPath (pathname request) = Some boardId
       /\ key = ("board:" ++ boardId)%string
       /\ snd (fetch JSON_parse JSON_stringify now uuid request TIMERS) = Responds r.
Proof.
  unfold fetch.
  destruct (matchPath (pathname request)) as [bid|]; [|now intros []].
  destruct (String.eqb (method request) "OPTIONS"); [now intros []|].
  destruct (String.eqb (method request) "GET").
  { destruct (loadBoard JSON_parse TIMERS bid); now intros []. }
  destruct (String.eqb (method request) "POST") eqn:Hm; [|now intros []].
  apply method_is in Hm.
  destruct (JSON_parse (text request)) as [body|]; [|now intros []].
  destruct (loadBoard JSON_parse TIMERS bid) as [loaded|]; [|now intros []].
  destruct (Any.applyCommand now uuid loaded body) as [updated|]; [|now intros []].
  cbn [fst snd]. unfold saveBoard, boardKey. intros Hk.
  split; [exact Hm|]. exists bid. eexists. split; [reflexivity|].
  split; [|reflexivity].
  destruct (String.eqb key ("board:" ++ bid)) eqn:E; [|now destruct Hk].
  now apply String.eqb_eq in E.
Qed.

(** X19. Every answer of [fetch], of whatever status, carries the four CORS
    headers, with the request's [Origin] echoed, or ["*"] when it is absent
    or empty. *)
Theorem cors_on_every_response
    (now : Z) (uuid : string) (request : Request) (TIMERS kv' : KV) (r : Response) :
  fetch JSON_parse JSON_stringify now uuid request TIMERS = (kv', Responds r) ->
  Headers_get "Access-Control-Allow-Origin" (headers r)
    = Some (match origin request with
            | Some o => if truthyStr o then o else "*"
            | None => "*"
            end)
  /\ Headers_get "Access-Control-Allow-Methods" (headers r) = Some "GET,POST,OPTIONS"
  /\ Headers_get "Access-Control-Allow-Headers" (headers r) = Some "Content-Type"
  /\ Headers_get "Access-Control-Max-Age" (headers r) = Some "86400".
Proof.
  intros H. apply fetch_responds_withCors in H. destruct H as [r0 ->].
  unfold withCors. cbn [headers].
  repeat split.
  - rewrite !Headers_get_set_other by (vm_compute; discriminate).
    apply Headers_get_set_same.
  - rewrite !Headers_get_set_other by (vm_compute; discriminate).
    apply Headers_get_set_same.
  - rewrite !Headers_get_set_other by (vm_compute; discriminate).
    apply Headers_get_set_same.
  - apply Headers_get_set_same.
Qed.

(** X20. Read your writes: after a [POST] was answered with a text that is
    not empty and that parses to a value written back as the same text, a
    [GET] of the same pathname is answered 200 with that text and leaves
    the store as it is. *)
Theorem post_then_get
    (now now' : Z) (uuid uuid' : string) (request request' : Request)
    (TIMERS kv' : KV) (boardId : string) (r : Response) (s : string) (v : value) :
  method request = "POST" ->
  matchPath (pathname request) = Some boardId ->
  fetch JSON_parse JSON_stringify now uuid request TIMERS = (kv', Responds r) ->
  content r = Some s ->
  truthyStr s = true ->
  JSON_parse s = Ok v ->
  JSON_stringify v = s ->
  method request' = "GET" ->
  pathname request' = pathname request ->
  exists r',
    fetch JSON_parse JSON_stringify now' uuid' request' kv' = (kv', Responds r')
    /\ status r' = 200
    /\ content r' = Some s.
Proof.
  intros Hm Hp Hf Hc Ht Hparse Hs Hm' Hp'.
  assert (Hkv : kv' (boardKey boardId) = Some s).
  { revert Hf. unfold fetch. rewrite Hp, Hm.
    change (String.eqb "POST" "OPTIONS") with false.
    change (String.eqb "POST" "GET") with false.
    change (String.eqb "POST" "POST") with true. cbv iota.
    destruct (JSON_parse (text request)) as [body|]; [|discriminate].
    destruct (loadBoard JSON_parse TIMERS boardId) as [loaded|]; [|discriminate].
    destruct (Any.applyCommand now uuid loaded body) as [updated|]; [|discriminate].
    intros [= <- <-]. unfold saveBoard. rewrite String.eqb_refl.
    exact Hc. }
  unfold fetch. rewrite Hp', Hp, Hm'.
  change (String.eqb "GET" "OPTIONS") with false.
  change (String.eqb "GET" "GET") with true. cbv iota.
  unfold loadBoard. rewrite Hkv, Ht, Hparse. cbn [negb].
  eexists. split; [reflexivity|]. split; [reflexivity|].
  unfold json. cbn [content withCors newResponse]. now rewrite Hs.
Qed.

(** X21. The worker with CORS answers as the worker without it, with the
    CORS headers added: for every method but [OPTIONS] the two leave the
    same store and end the same way, an answer of the one being
    [withCors] of the answer of the other.  On [OPTIONS] with a matching
    pathname the one answers 204 and the other 405. *)
Theorem fetch_adds_cors
    (now : Z) (uuid : string) (request : Request) (TIMERS : KV) :
  (method request <> "OPTIONS" ->
   fst (fetch JSON_parse JSON_stringify now uuid request TIMERS)
   = fst (fetch_plain JSON_parse JSON_stringify now uuid request TIMERS)
   /\ snd (fetch JSON_parse JSON_stringify now uuid request TIMERS)
      = match snd (fetch_plain JSON_parse JSON_stringify now uuid request TIMERS) with
        | Responds r => Responds (withCors r request)
        | other => other
        end)
  /\ (method request = "OPTIONS" ->
      forall boardId, matchPath (pathname request) = Some boardId ->
      exists r r',
        fetch JSON_parse JSON_stringify now uuid request TIMERS = (TIMERS, Responds r)
        /\ fetch_plain JSON_parse JSON_stringify now uuid request TIMERS
           = (TIMERS, Responds r')
        /\ status r = 204 /\ status r' = 405).
Proof.
  unfold fetch, fetch_plain, json, json_plain. split.
  - intros Hne.
    destruct (matchPath (pathname request)) as [bid|]; [|split; reflexivity].
    destruct (String.eqb (method request) "OPTIONS") eqn:Ho;
      [apply method_is in Ho; contradiction|].
    destruct (String.eqb (method request) "GET").
    { destruct (loadBoard JSON_parse TIMERS bid); split; reflexivity. }
    destruct (String.eqb (method request) "POST"); [|split; reflexivity].
    destruct (JSON_parse (text request)) as [body|]; [|split; reflexivity].
    destruct (loadBoard JSON_parse TIMERS bid) as [loaded|]; [|split; reflexivity].
    destruct (Any.applyCommand now uuid loaded body); split; reflexivity.
  - intros Hm bid Hp. rewrite Hp, Hm.
    do 2 eexists. repeat split.
Qed.
(** X22. A [GET] on a matching pathname is answered 200 with the loaded
    board written out, and leaves the store as it was; for a board never
    written that is [{boardId, timers: []}]. *)
Theorem get_serves_loaded_board
    (now : Z) (uuid : string) (request : Request) (TIMERS : KV) (boardId : string) :
  method request = "GET" ->
  matchPath (pathname request) = Some boardId ->
  exists v r,
    loadBoard JSON_parse TIMERS boardId = Ok v
    /\ fetch JSON_parse JSON_stringify now uuid request TIMERS = (TIMERS, Responds r)
    /\ status r = 200
    /\ content r = Some (JSON_stringify v)
    /\ (TIMERS ("board:" ++ boardId)%string = None ->
        v = VObj [ ("boardId", VStr boardId); ("timers", VArr []) ]).
Proof.
  intros Hm Hp. unfold fetch. rewrite Hp, Hm.
  change (String.eqb "GET" "OPTIONS") with false.
  change (String.eqb "GET" "GET") with true. cbv iota.
  destruct (loadBoard_returns TIMERS boardId) as [v Hv]. rewrite Hv.
  exists v. eexists. split; [reflexivity|]. split; [reflexivity|].
  split; [reflexivity|]. split; [reflexivity|].
  intros Hnone. revert Hv. unfold loadBoard, boardKey. rewrite Hnone.
  now intros [= <-].
Qed.

(** X23. Two [POST]s in a row run two steps of the engine: when the store
    holds the board [b], the bodies parse, [applyCommand] takes [b] to
    [b1] and [b1] to [b2], and the text [b1] is written as is not empty
    and parses back to it, the second [POST] answers with [b2] and stores
    it. *)
Theorem posts_compose
    (now1 now2 : Z) (u1 u2 : string) (request1 request2 : Request) (TIMERS : KV)
    (boardId : string) (body1 body2 : value) (b b1 b2 : Board) :
  method request1 = "POST" ->
  method request2 = "POST" ->
  matchPath (pathname request1) = Some boardId ->
  matchPath (pathname request2) = Some boardId ->
  JSON_parse (text request1) = Ok body1 ->
  JSON_parse (text request2) = Ok body2 ->
  loadBoard JSON_parse TIMERS boardId = Ok (boardValue b) ->
  applyCommand now1 u1 b body1 = Ok b1 ->
  applyCommand now2 u2 b1 body2 = Ok b2 ->
  truthyStr (JSON_stringify (boardValue b1)) = true ->
  JSON_parse (JSON_stringify (boardValue b1)) = Ok (boardValue b1) ->
  exists kv1 kv2,
    fetch JSON_parse JSON_stringify now1 u1 request1 TIMERS
    = (kv1, Responds (json JSON_stringify (boardValue b1) request1))
    /\ fetch JSON_parse JSON_stringify now2 u2 request2 kv1
       = (kv2, Responds (json JSON_stringify (boardValue b2) request2))
    /\ kv2 ("board:" ++ boardId)%string = Some (JSON_stringify (boardValue b2)).
Proof.
  intros Hm1 Hm2 Hp1 Hp2 Hb1 Hb2 Hl Ha1 Ha2 Ht Hrt.
  exists (saveBoard JSON_stringify TIMERS boardId (boardValue b1)).
  eexists. split; [|split].
  - unfold fetch. rewrite Hp1, Hm1, Hb1, Hl, applyCommand_on_boards, Ha1. reflexivity.
  - unfold fetch. rewrite Hp2, Hm2, Hb2.
    rewrite load_reads_saved, Ht, Hrt. cbn [negb].
    rewrite applyCommand_on_boards, Ha2. reflexivity.
  - unfold saveBoard, boardKey. now rewrite String.eqb_refl.
Qed.
End WorkerFacts.

(** ** The further properties at concrete inputs *)

Example post_start_outcome :
  @fetch ecma Json.parse Json.stringify t0 "u" post_start kitchenStore
  = (startedStore, Responds startedReply).
Proof. vm_compute. reflexivity. Qed.

Example scenario_delete :
  @applyCommand ecma t0 "u" (kitchen [teaIdle; instant]) (deleteBody "t1")
  = Ok (kitchen [instant]).
Proof. vm_compute. reflexivity. Qed.

Lemma delete_missing_is_noop_witness :
  @applyCommand ecma t0 "u" (kitchen [teaIdle]) (deleteBody "t9")
  = Ok (kitchen [teaIdle]).
Proof.
  apply (@delete_missing_is_noop ecma t0 "u" (kitchen [teaIdle]) (deleteBody "t9"));
    reflexivity.
Defined.

Lemma delete_removes_every_match_witness :
  (forall t, In t (timers (kitchen [instant])) -> id t <> "t1")
  /\ lookup (kitchen [instant]) "t1" = None
  /\ forall now' uuid',
       @applyCommand ecma now' uuid' (kitchen [instant]) (deleteBody "t1")
       = Ok (kitchen [instant]).
Proof.
  exact (@delete_removes_every_match ecma t0 "u" (kitchen [teaIdle; instant])
           (kitchen [instant]) (deleteBody "t1") "t1" eq_refl scenario_delete).
Defined.


Lemma create_then_delete_witness :
  @applyCommand ecma (t0 + 6000) "u" (kitchen [teaIdle]) (deleteBody "t1")
  = Ok (emptyBoard "kitchen").
Proof.
  exact (@create_then_delete ecma t0 (t0 + 6000)%Z "t1" "u" (emptyBoard "kitchen")
           (kitchen [teaIdle])
           (VObj [ ("action", VStr "create");
                   ("payload", VObj [ ("label", VStr "Tea");
                                      ("durationMs", VNum 5000%float) ]) ])
           (deleteBody "t1") eq_refl eq_refl scenario_create eq_refl).
Defined.

Lemma pause_accumulates_witness :
  exists b' t',
    @applyCommand ecma (t0 + 2000) "u" (kitchen [teaRunning]) (commandBody "t1" "pause")
      = Ok b'
    /\ lookup b' "t1" = Some t'
    /\ state t' = paused
    /\ elapsedMs t' = 2000%float
    /\ startedAt t' = None.
Proof.
  apply (@pause_accumulates ecma (t0 + 2000)%Z "u" (kitchen [teaRunning])
           teaRunning iso0); vm_compute; reflexivity.
Defined.

Lemma command_keeps_identity_witness :
  map id (timers (kitchen [teaRunning])) = map id (timers (kitchen [teaIdle]))
  /\ exists t',
       lookup (kitchen [teaRunning]) "t1" = Some t'
       /\ id t' = "t1" /\ label t' = VStr "Tea" /\ durationMs t' = 5000%float
       /\ createdAt t' = iso0 /\ updatedAt t' = @toISOString ecma t0.
Proof.
  exact (@command_keeps_identity ecma t0 "u" (kitchen [teaIdle]) (kitchen [teaRunning])
           (commandBody "t1" "start") "t1" teaIdle eq_refl eq_refl eq_refl
           scenario_start).
Defined.

Lemma settled_after_command_witness :
  exists t',
    lookup (kitchen [teaFinished]) "t1" = Some t'
    /\ ((state t' = finished /\ elapsedMs t' = durationMs t'
         /\ startedAt t' = None)
        \/ (durationMs t' <=? @effectiveElapsed ecma t' (Z2F (t0 + 6000)))%float
           = false).
Proof.
  exact (@settled_after_command ecma (t0 + 6000)%Z "u" (kitchen [teaRunning])
           (kitchen [teaFinished]) (commandBody "t1" "pause") "t1" teaRunning
           eq_refl eq_refl eq_refl scenario_pause_late).
Defined.

Lemma reset_forgets_witness :
  @applyCommand ecma (t0 + 6000) "u" (kitchen [teaRunning]) (commandBody "t1" "reset")
  = @applyCommand ecma (t0 + 6000) "u" (kitchen [teaIdle]) (commandBody "t1" "reset").
Proof.
  exact (@reset_forgets ecma t0 (t0 + 6000)%Z "u" "u" (kitchen [teaIdle])
           (kitchen [teaRunning]) (commandBody "t1" "start") "t1"
           eq_refl eq_refl scenario_start).
Defined.

Lemma rest_ignores_clock_witness :
  exists b1 b2 t1 t2,
    @applyCommand ecma t0 "u" (kitchen [teaIdle]) (commandBody "t1" "pause") = Ok b1
    /\ @applyCommand ecma (t0 + 6000) "u" (kitchen [teaIdle]) (commandBody "t1" "pause")
       = Ok b2
    /\ lookup b1 "t1" = Some t1
    /\ lookup b2 "t1" = Some t2
    /\ state t1 = state t2
    /\ elapsedMs t1 = elapsedMs t2
    /\ startedAt t1 = startedAt t2.
Proof.
  apply (@rest_ignores_clock ecma t0 (t0 + 6000)%Z "u" "u" (kitchen [teaIdle])
           (commandBody "t1" "pause") "t1" teaIdle);
    try reflexivity; discriminate.
Defined.

Lemma reachable_well_formed_witness :
  consistent teaFinished
  /\ ToBoolean (label teaFinished) = true
  /\ (state teaFinished = idle -> elapsedMs teaFinished = 0%float).
Proof.
  apply (@reachable_well_formed ecma (kitchen [teaFinished]) kitchen_reachable).
  left. reflexivity.
Defined.

Lemma save_then_load_witness :
  loadBoard Json.parse
    (saveBoard Json.stringify (fun _ => None) "kitchen"
       (boardValue (kitchen [teaRunning; instant])))
    "kitchen"
  = Ok (boardValue (kitchen [teaRunning; instant])).
Proof.
  apply save_then_load; vm_compute; reflexivity.
Defined.

Lemma save_is_isolated_witness :
  loadBoard Json.parse
    (saveBoard Json.stringify kitchenStore "pantry" (boardValue (kitchen [instant])))
    "kitchen"
  = loadBoard Json.parse kitchenStore "kitchen".
Proof.
  apply save_is_isolated. discriminate.
Defined.

Lemma post_invalid_body_raises_witness :
  @fetch ecma Json.parse Json.stringify t0 "u" post_broken kitchenStore
  = (kitchenStore, Raises SyntaxError).
Proof.
  apply (@post_invalid_body_raises ecma Json.parse Json.stringify t0 "u" post_broken
           kitchenStore "kitchen" SyntaxError); reflexivity.
Defined.

Lemma post_persists_response_witness :
  startedStore "board:kitchen" = content startedReply
  /\ (forall key, key <> "board:kitchen" -> startedStore key = kitchenStore key)
  /\ exists body loaded updated,
       Json.parse (text post_start) = Ok body
       /\ loadBoard Json.parse kitchenStore "kitchen" = Ok loaded
       /\ @Any.applyCommand ecma t0 "u" loaded body = Ok updated
       /\ content startedReply = Some (Json.stringify updated).
Proof.
  exact (@post_persists_response ecma Json.parse Json.stringify t0 "u" post_start
           kitchenStore startedStore "kitchen" startedReply eq_refl eq_refl
           post_start_outcome).
Defined.

Lemma fetch_writes_only_on_post_witness :
  method post_start = "POST"
  /\ exists boardId r,
       matchPath (pathname post_start) = Some boardId
       /\ "board:kitchen" = ("board:" ++ boardId)%string
       /\ snd (@fetch ecma Json.parse Json.stringify t0 "u" post_start kitchenStore)
          = Responds r.
Proof.
  apply (@fetch_writes_only_on_post ecma Json.parse Json.stringify t0 "u" post_start
           kitchenStore "board:kitchen").
  rewrite post_start_outcome. vm_compute. discriminate.
Defined.

Lemma cors_on_every_response_witness :
  Headers_get "Access-Control-Allow-Origin" (headers startedReply)
    = Some "https://timers.example"
  /\ Headers_get "Access-Control-Allow-Methods" (headers startedReply)
     = Some "GET,POST,OPTIONS"
  /\ Headers_get "Access-Control-Allow-Headers" (headers startedReply)
     = Some "Content-Type"
  /\ Headers_get "Access-Control-Max-Age" (headers startedReply) = Some "86400".
Proof.
  exact (@cors_on_every_response ecma Json.parse Json.stringify t0 "u" post_start
           kitchenStore startedStore startedReply post_start_outcome).
Defined.

Lemma post_then_get_witness :
  exists r',
    @fetch ecma Json.parse Json.stringify (t0 + 6000) "u" get_kitchen startedStore
    = (startedStore, Responds r')
    /\ status r' = 200
    /\ content r' = Some (Json.stringify (boardValue (kitchen [teaRunning]))).
Proof.
  apply (@post_then_get ecma Json.parse Json.stringify t0 (t0 + 6000)%Z "u" "u"
           post_start get_kitchen kitchenStore startedStore "kitchen" startedReply
           (Json.stringify (boardValue (kitchen [teaRunning])))
           (boardValue (kitchen [teaRunning])));
    try reflexivity; try exact post_start_outcome; vm_compute; reflexivity.
Defined.

Lemma get_serves_loaded_board_witness :
  exists v r,
    loadBoard Json.parse (fun _ => None) "kitchen" = Ok v
    /\ @fetch ecma Json.parse Json.stringify t0 "u" get_kitchen (fun _ => None)
       = (fun _ => None, Responds r)
    /\ status r = 200
    /\ content r = Some (Json.stringify v)
    /\ ((fun _ : string => @None string) "board:kitchen" = None ->
        v = VObj [ ("boardId", VStr "kitchen"); ("timers", VArr []) ]).
Proof.
  exact (@get_serves_loaded_board ecma Json.parse Json.stringify t0 "u" get_kitchen
           (fun _ => None) "kitchen" eq_refl eq_refl).
Defined.

Lemma posts_compose_witness :
  exists kv1 kv2,
    @fetch ecma Json.parse Json.stringify t0 "u" post_start kitchenStore
    = (kv1, Responds (json Json.stringify (boardValue (kitchen [teaRunning])) post_start))
    /\ @fetch ecma Json.parse Json.stringify (t0 + 6000) "u" post_pause kv1
       = (kv2, Responds (json Json.stringify (boardValue (kitchen [teaFinished]))
                           post_pause))
    /\ kv2 "board:kitchen"
       = Some (Json.stringify (boardValue (kitchen [teaFinished]))).
Proof.
  apply (@posts_compose ecma Json.parse Json.stringify t0 (t0 + 6000)%Z "u" "u"
           post_start post_pause kitchenStore "kitchen"
           (commandBody "t1" "start") (commandBody "t1" "pause")
           (kitchen [teaIdle]) (kitchen [teaRunning]) (kitchen [teaFinished]));
    vm_compute; reflexivity.
Defined.

Lemma fetch_routes_witness :
  exists r,
    @fetch ecma Json.parse Json.stringify t0 "u"
      {| method := "OPTIONS"; pathname := "/api/boards/a/b/timers";
         origin := None; text := "" |} kitchenStore
    = (kitchenStore, Responds r)
    /\ status r = 404
    /\ Headers_get "Content-Type" (headers r) = Some "text/plain;charset=UTF-8".
Proof.
  destruct (@fetch_routes ecma Json.parse Json.stringify t0 "u"
              {| method := "OPTIONS"; pathname := "/api/boards/a/b/timers";
                 origin := None; text := "" |} kitchenStore) as [Hstatus Hanswer].
  destruct (Hanswer (or_intror eq_refl)) as [r Hr].
  exists r. split; [exact Hr|].
  destruct (Hstatus _ _ Hr) as [H1 H2]. split; [exact H1|].
  rewrite H2. change (matchPath "/api/boards/a/b/timers") with (@None string) in H1.
  now rewrite H1.
Defined.

Lemma fetch_adds_cors_witness :
  fst (@fetch ecma Json.parse Json.stringify t0 "u" post_start kitchenStore)
  = fst (@fetch_plain ecma Json.parse Json.stringify t0 "u" post_start kitchenStore)
  /\ snd (@fetch ecma Json.parse Json.stringify t0 "u" post_start kitchenStore)
     = match snd (@fetch_plain ecma Json.parse Json.stringify t0 "u" post_start
                    kitchenStore) with
       | Responds r => Responds (withCors r post_start)
       | other => other
       end.
Proof.
  apply (@fetch_adds_cors ecma Json.parse Json.stringify t0 "u" post_start kitchenStore).
  discriminate.
Defined.

(** ** Stored values that are no boards

    [loadBoard] hands on whatever the stored text parses to, and the
    engine runs on it. *)

(** A body with no action leaves any stored value as it is, and the worker
    writes it back and answers 200. *)
Example post_on_bare_object :
  @fetch ecma Json.parse Json.stringify t0 "u" post_list bareStore
  = (saveBoard Json.stringify bareStore "kitchen" (VObj []),
     Responds (json Json.stringify (VObj []) post_list)).
Proof. vm_compute. reflexivity. Qed.

(** [create] on a value with no [timers] raises at [board.timers.push], and
    nothing is written. *)
Example create_on_bare_object :
  @fetch ecma Json.parse Json.stringify t0 "u" post_create bareStore
  = (bareStore, Raises TypeError).
Proof. vm_compute. reflexivity. Qed.

(** A duration read back as [null] counts as [0] in the auto-finish test:
    [start] finishes the timer at once and copies the [null] into
    [elapsedMs]. *)
Example start_on_unbounded :
  @Any.applyCommand ecma t0 "u" unbounded (commandBody "t1" "start")
  = Ok (VObj [ ("boardId", VStr "kitchen");
               ("timers",
                VArr [ VObj [ ("id", VStr "t1");
                              ("label", VStr "Tea");
                              ("durationMs", VNull);
                              ("state", VStr "finished");
                              ("createdAt", VStr iso0);
                              ("updatedAt", VStr iso0);
                              ("startedAt", VNull);
                              ("elapsedMs", VNull) ] ]) ]).
Proof. vm_compute. reflexivity. Qed.

(** A command that names no id finds the first element without an [id]; a
    number cannot take the assignment of [updatedAt]. *)
Example command_on_number :
  @Any.applyCommand ecma t0 "u" scalars (anonymousBody "start") = Throw TypeError.
Proof. vm_compute. reflexivity. Qed.

(** An element that is falsy is found and then given up at
    [if (!timer) return board]. *)
Example command_on_empty_string :
  @Any.applyCommand ecma t0 "u"
    (VObj [ ("timers", VArr [ VStr ""; VNum 5%float ]) ]) (anonymousBody "start")
  = Ok (VObj [ ("timers", VArr [ VStr ""; VNum 5%float ]) ]).
Proof. vm_compute. reflexivity. Qed.

(** A timer stored with nothing but its [id] gets the properties the
    command assigns, in the order of the assignments. *)
Example command_on_bare_timer :
  @Any.applyCommand ecma t0 "u"
    (VObj [ ("timers", VArr [ VObj [ ("id", VStr "t1") ] ]) ]) (commandBody "t1" "reset")
  = Ok (VObj [ ("timers",
                VArr [ VObj [ ("id", VStr "t1");
                              ("elapsedMs", VNum 0%float);
                              ("startedAt", VNull);
                              ("state", VStr "idle");
                              ("updatedAt", VStr iso0) ] ]) ]).
Proof. vm_compute. reflexivity. Qed.
